(** * Statistics propagation through a filter
    (src/optimizer/statistics/operator/propagate_filter.cpp)

    A shallow embedding of [StatisticsPropagator]'s filter code: the
    constant-fold checks, the narrowing of column statistics by a comparison
    that passed, and the loop of [PropagateStatistics(LogicalFilter &, ...)]
    that erases, folds or applies each predicate of the filter.

    Conventions.
    - [D_ASSERT] is a debug-build assertion; the embedding follows the release
      build, where it compiles to nothing.  Each assertion is kept as a
      comment at its place.
    - [idx_t] is an unsigned 64-bit integer, embedded as [N] with the
      wrap-around of [i--] and [i++] written out.
    - [statistics_map] is a [gmap] from [ColumnBinding] to the statistics
      object it owns.  A C++ reference to a stored object is the key of its
      entry, so two references to the same entry alias each other. *)

From stdpp Require Import gmap strings list fin_maps.
From Stdlib Require Import ZArith NArith Lia.

Local Open Scope Z_scope.

(** ** Logical types and typed scalar values *)

(** Modelled from the spec: the declaration of [LogicalType] is not part of
    the sources at hand.  Only [IsNumeric] is consulted by the filter code;
    the integral family stands for the numeric types. *)
Inductive LogicalType :=
| SQLNULL | BOOLEAN | TINYINT | SMALLINT | INTEGER | BIGINT | HUGEINT | VARCHAR.

Definition IsNumeric (t : LogicalType) : bool :=
  match t with
  | TINYINT | SMALLINT | INTEGER | BIGINT | HUGEINT => true
  | _ => false
  end.

(** Modelled from the spec: [Value] is "a boxed, typed literal supporting
    equality, total ordering consistent with its logical type, and a
    null-check".  The payload of a boolean or integral value is an integer. *)
Record Value := mkValue {
  type_ : LogicalType;
  is_null : bool;
  value_ : Z
}.

Definition IsNull (v : Value) : bool := is_null v.

(** [Value::BOOLEAN(b)] *)
Definition Value_BOOLEAN (b : bool) : Value :=
  mkValue BOOLEAN false (if b then 1 else 0).

(** [Value::INTEGER(n)] and the typed null, used by the examples. *)
Definition Value_INTEGER (n : Z) : Value := mkValue INTEGER false n.
Definition Value_NULL (t : LogicalType) : Value := mkValue t true 0.

(** [operator==]: two nulls are equal, a null differs from every non-null
    value, non-null values are compared by payload. *)
Definition Value_eq (l r : Value) : bool :=
  if is_null l && is_null r then true
  else if is_null l || is_null r then false
  else value_ l =? value_ r.

(** [operator>] and [operator<]: the total order of the payloads, with null
    below every other value.  The filter code compares bounds only after it
    has checked that they are not null. *)
Definition Value_gt (l r : Value) : bool :=
  if is_null l then false
  else if is_null r then true
  else value_ l >? value_ r.

Definition Value_lt (l r : Value) : bool := Value_gt r l.

(** ** Column bindings and column statistics *)

Record ColumnBinding := mkColumnBinding {
  table_index : N;
  column_index : N
}.

#[global] Instance ColumnBinding_eq_dec : EqDecision ColumnBinding.
Proof. solve_decision. Defined.

#[global] Instance ColumnBinding_countable : Countable ColumnBinding.
Proof.
  refine (inj_countable' (fun b => (table_index b, column_index b))
                         (fun p => mkColumnBinding (fst p) (snd p)) _).
  intros []; reflexivity.
Defined.

Record ValidityStatistics := mkValidityStatistics { has_null : bool }.

(** [BaseStatistics] with the two members of its subclass
    [NumericStatistics].  The code reaches [min] and [max] through the cast
    [(NumericStatistics &)stats] and only after [stats.type.IsNumeric()]:
    statistics of a numeric type are [NumericStatistics] objects, and for
    every other type the two fields are neither read nor written.
    [validity_stats] is a [unique_ptr], [None] is the null pointer. *)
Record BaseStatistics := mkBaseStatistics {
  type : LogicalType;
  validity_stats : option ValidityStatistics;
  min : Value;
  max : Value
}.

#[global] Instance BaseStatistics_inhabited : Inhabited BaseStatistics :=
  populate (mkBaseStatistics SQLNULL None (Value_NULL SQLNULL) (Value_NULL SQLNULL)).

Definition set_validity_stats (v : option ValidityStatistics) (s : BaseStatistics) :=
  mkBaseStatistics (type s) v (min s) (max s).
Definition set_min (v : Value) (s : BaseStatistics) :=
  mkBaseStatistics (type s) (validity_stats s) v (max s).
Definition set_max (v : Value) (s : BaseStatistics) :=
  mkBaseStatistics (type s) (validity_stats s) (min s) v.

(** [make_unique<ValidityStatistics>(false)] *)
Definition not_null : option ValidityStatistics := Some (mkValidityStatistics false).

(** [CanHaveNull()]: without validity statistics nothing is known. *)
Definition CanHaveNull (s : BaseStatistics) : bool :=
  match validity_stats s with
  | None => true
  | Some v => has_null v
  end.

(** ** Expressions *)

Module ExpressionType.
Inductive t :=
| INVALID
| COMPARE_EQUAL
| COMPARE_NOTEQUAL
| COMPARE_LESSTHAN
| COMPARE_GREATERTHAN
| COMPARE_LESSTHANOREQUALTO
| COMPARE_GREATERTHANOREQUALTO
| COMPARE_DISTINCT_FROM
| COMPARE_NOT_DISTINCT_FROM
| COMPARE_BETWEEN
| VALUE_CONSTANT
| BOUND_COLUMN_REF
| BOUND_FUNCTION.
End ExpressionType.

Module ExpressionClass.
Inductive t :=
| INVALID
| BOUND_BETWEEN
| BOUND_COLUMN_REF
| BOUND_COMPARISON
| BOUND_CONSTANT
| BOUND_FUNCTION.
End ExpressionClass.

(** The expression classes the filter code distinguishes.  A between
    expression carries its two comparators (the spec's
    [Between(input, lower, upper, lowerCmp, upperCmp)]). *)
#[warnings="-register-all"] Inductive Expression :=
| BoundColumnRefExpression (binding : ColumnBinding)
| BoundConstantExpression (value : Value)
| BoundComparisonExpression (type : ExpressionType.t) (left right : Expression)
| BoundBetweenExpression (input lower upper : Expression)
    (lower_cmp upper_cmp : ExpressionType.t)
| BoundFunctionExpression (name : string) (children : list Expression).

(** [expr.type] *)
Definition Expression_type (expr : Expression) : ExpressionType.t :=
  match expr with
  | BoundColumnRefExpression _ => ExpressionType.BOUND_COLUMN_REF
  | BoundConstantExpression _ => ExpressionType.VALUE_CONSTANT
  | BoundComparisonExpression t _ _ => t
  | BoundBetweenExpression _ _ _ _ _ => ExpressionType.COMPARE_BETWEEN
  | BoundFunctionExpression _ _ => ExpressionType.BOUND_FUNCTION
  end.

Definition GetExpressionClass (expr : Expression) : ExpressionClass.t :=
  match expr with
  | BoundColumnRefExpression _ => ExpressionClass.BOUND_COLUMN_REF
  | BoundConstantExpression _ => ExpressionClass.BOUND_CONSTANT
  | BoundComparisonExpression _ _ _ => ExpressionClass.BOUND_COMPARISON
  | BoundBetweenExpression _ _ _ _ _ => ExpressionClass.BOUND_BETWEEN
  | BoundFunctionExpression _ _ => ExpressionClass.BOUND_FUNCTION
  end.

(** Modelled from the spec: [LowerComparisonType()] and
    [UpperComparisonType()] of [BoundBetweenExpression] are "the Between's
    lower-bound comparator" and "its upper-bound comparator". *)
Definition LowerComparisonType (lower_cmp upper_cmp : ExpressionType.t) := lower_cmp.
Definition UpperComparisonType (lower_cmp upper_cmp : ExpressionType.t) := upper_cmp.

(** Modelled from the spec: [FlipComparisionExpression] is declared outside
    the sources at hand; the mirror "swaps < with > and <= with >= and leaves
    = unchanged". *)
Definition FlipComparisionExpression (t : ExpressionType.t) : ExpressionType.t :=
  match t with
  | ExpressionType.COMPARE_LESSTHAN => ExpressionType.COMPARE_GREATERTHAN
  | ExpressionType.COMPARE_GREATERTHAN => ExpressionType.COMPARE_LESSTHAN
  | ExpressionType.COMPARE_LESSTHANOREQUALTO => ExpressionType.COMPARE_GREATERTHANOREQUALTO
  | ExpressionType.COMPARE_GREATERTHANOREQUALTO => ExpressionType.COMPARE_LESSTHANOREQUALTO
  | _ => t
  end.

(** ** The constant-fold checks *)

Definition ExpressionIsConstant (expr : Expression) (val : Value) : bool :=
  match expr with
  | BoundConstantExpression value =>
      (* D_ASSERT(bound_constant.value.type() == val.type()); *)
      Value_eq value val
  | _ => false
  end.

(** ** Narrowing of column statistics *)

Import ExpressionType.

Definition SetStatisticsNotNull (binding : ColumnBinding)
  (statistics_map : gmap ColumnBinding BaseStatistics)
  : gmap ColumnBinding BaseStatistics :=
  match statistics_map !! binding with
  | None => statistics_map
  | Some entry => <[binding := set_validity_stats not_null entry]> statistics_map
  end.

(** [UpdateFilterStatistics(BaseStatistics &stats, ExpressionType, const Value &)] *)
Definition UpdateFilterStatistics_constant (stats : BaseStatistics)
  (comparison_type : ExpressionType.t) (constant : Value) : BaseStatistics :=
  (* any comparison filter removes all null values *)
  let stats := set_validity_stats not_null stats in
  if negb (IsNumeric (type stats)) then stats
  else if IsNull (min stats) || IsNull (max stats) then stats
  else match comparison_type with
       | COMPARE_LESSTHAN | COMPARE_LESSTHANOREQUALTO =>
           set_max constant stats
       | COMPARE_GREATERTHAN | COMPARE_GREATERTHANOREQUALTO =>
           set_min constant stats
       | COMPARE_EQUAL =>
           let stats := set_min constant stats in
           set_max constant stats
       | _ => stats
       end.

(** [UpdateFilterStatistics(BaseStatistics &lstats, BaseStatistics &rstats,
    ExpressionType)].  The two references point into the statistics map and
    are given by the keys of their entries; the caller has found both.
    Every read and write goes through the map, so the function is the same
    whether the two references are distinct objects or one object. *)
Definition UpdateFilterStatistics_stats (lstats rstats : ColumnBinding)
  (comparison_type : ExpressionType.t) (h : gmap ColumnBinding BaseStatistics)
  : gmap ColumnBinding BaseStatistics :=
  (* any comparison filter removes all null values *)
  let h := alter (set_validity_stats not_null) lstats h in
  let h := alter (set_validity_stats not_null) rstats h in
  (* D_ASSERT(lstats.type == rstats.type); *)
  if negb (IsNumeric (type (h !!! lstats))) then h
  else if IsNull (min (h !!! lstats)) || IsNull (max (h !!! lstats))
          || IsNull (min (h !!! rstats)) || IsNull (max (h !!! rstats)) then h
  else match comparison_type with
       | COMPARE_LESSTHAN | COMPARE_LESSTHANOREQUALTO =>
           let h := if Value_gt (max (h !!! lstats)) (max (h !!! rstats))
                    then alter (set_max (max (h !!! rstats))) lstats h else h in
           let h := if Value_lt (min (h !!! rstats)) (min (h !!! lstats))
                    then alter (set_min (min (h !!! lstats))) rstats h else h in
           h
       | COMPARE_GREATERTHAN | COMPARE_GREATERTHANOREQUALTO =>
           let h := if Value_gt (max (h !!! rstats)) (max (h !!! lstats))
                    then alter (set_max (max (h !!! lstats))) rstats h else h in
           let h := if Value_lt (min (h !!! lstats)) (min (h !!! rstats))
                    then alter (set_min (min (h !!! rstats))) lstats h else h in
           h
       | COMPARE_EQUAL =>
           (* select the highest min *)
           let h := if Value_gt (min (h !!! lstats)) (min (h !!! rstats))
                    then alter (set_min (min (h !!! lstats))) rstats h
                    else alter (set_min (min (h !!! rstats))) lstats h in
           (* select the lowest max *)
           let h := if Value_lt (max (h !!! lstats)) (max (h !!! rstats))
                    then alter (set_max (max (h !!! lstats))) rstats h
                    else alter (set_max (max (h !!! rstats))) lstats h in
           h
       | _ => h
       end.

(** The tail of [UpdateFilterStatistics(Expression &, Expression &,
    ExpressionType)]: [if (constant && columnref) { ... }]. *)
Definition UpdateFilterStatistics_columnref_constant (columnref : ColumnBinding)
  (comparison_type : ExpressionType.t) (constant : Value)
  (statistics_map : gmap ColumnBinding BaseStatistics)
  : gmap ColumnBinding BaseStatistics :=
  match statistics_map !! columnref with
  | None => statistics_map
  | Some entry =>
      <[columnref := UpdateFilterStatistics_constant entry comparison_type constant]>
        statistics_map
  end.

(** [UpdateFilterStatistics(Expression &left, Expression &right,
    ExpressionType)].  [e.type == BOUND_COLUMN_REF] followed by the cast to
    [BoundColumnRefExpression] is a match on the constructor, likewise for
    [VALUE_CONSTANT]. *)
Definition UpdateFilterStatistics_comparison (left right : Expression)
  (comparison_type : ExpressionType.t)
  (statistics_map : gmap ColumnBinding BaseStatistics)
  : gmap ColumnBinding BaseStatistics :=
  (* any column ref involved in a comparison will not be null after it *)
  let statistics_map :=
    match left with
    | BoundColumnRefExpression binding => SetStatisticsNotNull binding statistics_map
    | _ => statistics_map
    end in
  let statistics_map :=
    match right with
    | BoundColumnRefExpression binding => SetStatisticsNotNull binding statistics_map
    | _ => statistics_map
    end in
  match left, right with
  | BoundConstantExpression constant, BoundColumnRefExpression columnref =>
      UpdateFilterStatistics_columnref_constant columnref
        (FlipComparisionExpression comparison_type) constant statistics_map
  | BoundColumnRefExpression columnref, BoundConstantExpression constant =>
      UpdateFilterStatistics_columnref_constant columnref
        comparison_type constant statistics_map
  | BoundColumnRefExpression left_column_ref, BoundColumnRefExpression right_column_ref =>
      match statistics_map !! left_column_ref, statistics_map !! right_column_ref with
      | Some _, Some _ =>
          UpdateFilterStatistics_stats left_column_ref right_column_ref
            comparison_type statistics_map
      | _, _ => statistics_map
      end
  | _, _ => (* unsupported filter *) statistics_map
  end.

(** [UpdateFilterStatistics(Expression &condition)] *)
Definition UpdateFilterStatistics (condition : Expression)
  (statistics_map : gmap ColumnBinding BaseStatistics)
  : gmap ColumnBinding BaseStatistics :=
  match condition with
  | BoundBetweenExpression input lower upper lower_cmp upper_cmp =>
      let statistics_map :=
        UpdateFilterStatistics_comparison input lower
          (LowerComparisonType lower_cmp upper_cmp) statistics_map in
      UpdateFilterStatistics_comparison input upper
        (UpperComparisonType lower_cmp upper_cmp) statistics_map
  | BoundComparisonExpression comparison_type lhs rhs =>
      UpdateFilterStatistics_comparison lhs rhs comparison_type statistics_map
  | _ => statistics_map
  end.

(** ** Plan nodes and node statistics *)

(** The operators the filter code tells apart: the zero-row sentinel
    ([LOGICAL_EMPTY_RESULT]), a filter with its predicate list and its single
    child ([children[0]]), and any other operator. *)
#[warnings="-register-all"] Inductive LogicalOperator :=
| LogicalEmptyResult
| LogicalFilter (expressions : list Expression) (child : LogicalOperator)
| LogicalOtherOperator (tag : N) (children : list LogicalOperator).

(** [op->type == LogicalOperatorType::LOGICAL_EMPTY_RESULT] *)
Definition is_empty_result (op : LogicalOperator) : bool :=
  match op with
  | LogicalEmptyResult => true
  | _ => false
  end.

(** Modelled from the spec: the class [NodeStatistics] is declared outside the
    sources at hand.  It carries "at minimum a maximum-cardinality bound and
    an exact flag", and the object built by [NodeStatistics(0, 0)] is the
    spec's [NodeStatistics{cardinality = 0, exact = true}]. *)
Record NodeStatistics := mkNodeStatistics {
  max_cardinality : N;
  exact : bool
}.

Definition NodeStatistics_0_0 : NodeStatistics := mkNodeStatistics 0 true.

(** Modelled from the spec: [ReplaceWithEmptyResult(slotRef)] "installs a
    terminal zero-row plan node into the given slot, discarding whatever
    subtree was previously there". *)
Definition ReplaceWithEmptyResult (node : LogicalOperator) : LogicalOperator :=
  LogicalEmptyResult.

(** The collaborators of the filter code, declared outside the sources at
    hand and left open:
    - [PropagateStatistics_child] is [PropagateStatistics(unique_ptr<LogicalOperator> &)]
      on the child; it returns the child's node statistics (a [unique_ptr],
      possibly null), may replace the child and updates the statistics map;
    - [PropagateExpression] is [PropagateExpression(unique_ptr<Expression> &)];
      by its contract in the spec it may replace the expression and update
      the statistics map; it can read the member [node_stats], which only
      the propagation of an operator assigns;
    - [IsConstantOrNull] is [ConstantOrNull::IsConstantOrNull], applied to a
      bound function expression. *)
Class Collaborators := {
  PropagateStatistics_child :
    LogicalOperator -> gmap ColumnBinding BaseStatistics ->
    option NodeStatistics * LogicalOperator * gmap ColumnBinding BaseStatistics;
  PropagateExpression :
    option NodeStatistics -> Expression -> gmap ColumnBinding BaseStatistics ->
    Expression * gmap ColumnBinding BaseStatistics;
  IsConstantOrNull : string -> list Expression -> Value -> bool
}.

(** What a call of [PropagateStatistics(LogicalFilter &, node_ptr)] leaves
    behind: the operator in the slot [*node_ptr], the statistics map and the
    returned node statistics. *)
Record Result := mkResult {
  node : LogicalOperator;
  statistics : gmap ColumnBinding BaseStatistics;
  returned : option NodeStatistics
}.

(** The state of the loop over [filter.expressions]. *)
Record LoopState := mkLoopState {
  idx : N;
  exprs : list Expression;
  smap : gmap ColumnBinding BaseStatistics
}.

Inductive Control :=
| Next (s : LoopState)
| Done (r : Result).

(** [idx_t] arithmetic: [i--] and [i++] on an unsigned 64-bit counter. *)
Definition idx_t_modulus : N := 2 ^ 64.
Definition idx_decr (i : N) : N := ((i + idx_t_modulus - 1) mod idx_t_modulus)%N.
Definition idx_incr (i : N) : N := ((i + 1) mod idx_t_modulus)%N.

(** [filter.expressions.size()] *)
Definition size (expressions : list Expression) : N := N.of_nat (length expressions).

Section Filter.
Context `{Collaborators}.

Definition ExpressionIsConstantOrNull (expr : Expression) (val : Value) : bool :=
  match expr with
  | BoundFunctionExpression name children => IsConstantOrNull name children val
  | _ => false
  end.

(** One turn of the [for] loop: the test [i < filter.expressions.size()], the
    body, and the [i++] that follows it.  [node_stats] and [child] are
    [this->node_stats] and [filter.children[0]] after the child has been
    propagated. *)
Definition loop_iteration (node_stats : option NodeStatistics) (child : LogicalOperator)
  (s : LoopState) : Control :=
  let i := idx s in
  if (i <? size (exprs s))%N then
    match exprs s !! N.to_nat i with
    | None => (* not reached: i < size *) Done (mkResult (LogicalFilter (exprs s) child) (smap s) node_stats)
    | Some condition =>
        let '(condition, statistics_map) := PropagateExpression node_stats condition (smap s) in
        let expressions := <[N.to_nat i := condition]> (exprs s) in
        if ExpressionIsConstant condition (Value_BOOLEAN true) then
          (* filter is always true: erase this condition *)
          let expressions := delete (N.to_nat i) expressions in
          let i := idx_decr i in
          if bool_decide (expressions = []) then
            (* all conditions have been erased: remove the entire filter *)
            Done (mkResult child statistics_map node_stats)
          else Next (mkLoopState (idx_incr i) expressions statistics_map)
        else if ExpressionIsConstant condition (Value_BOOLEAN false)
                || ExpressionIsConstantOrNull condition (Value_BOOLEAN false) then
          (* filter is always false or null *)
          Done (mkResult (ReplaceWithEmptyResult (LogicalFilter expressions child))
                  statistics_map (Some NodeStatistics_0_0))
        else
          (* cannot prune this filter: propagate statistics from the filter *)
          Next (mkLoopState (idx_incr i) expressions
                  (UpdateFilterStatistics condition statistics_map))
    end
  else
    (* the max cardinality of a filter is the cardinality of the input *)
    Done (mkResult (LogicalFilter (exprs s) child) (smap s) node_stats).

Fixpoint run_loop (fuel : nat) (node_stats : option NodeStatistics) (child : LogicalOperator)
  (s : LoopState) : option Result :=
  match fuel with
  | O => None
  | S fuel =>
      match loop_iteration node_stats child s with
      | Done r => Some r
      | Next s => run_loop fuel node_stats child s
      end
  end.

(** [PropagateStatistics(LogicalFilter &filter, unique_ptr<LogicalOperator> *node_ptr)],
    where [*node_ptr] holds the filter [LogicalFilter expressions child].
    Every turn of the loop erases a predicate or moves on to the next one, so
    one turn per predicate and a last one for the failing test are enough. *)
Definition PropagateStatistics_filter (expressions : list Expression) (child : LogicalOperator)
  (statistics_map : gmap ColumnBinding BaseStatistics) : option Result :=
  (* first propagate to the child *)
  let '(node_stats, child, statistics_map) := PropagateStatistics_child child statistics_map in
  if is_empty_result child then
    Some (mkResult (ReplaceWithEmptyResult (LogicalFilter expressions child))
            statistics_map (Some NodeStatistics_0_0))
  else
    (* then propagate to each of the expressions *)
    run_loop (S (length expressions)) node_stats child (mkLoopState 0 expressions statistics_map).

(** The two fold tests of the loop body. *)
Definition proven_true (condition : Expression) : bool :=
  ExpressionIsConstant condition (Value_BOOLEAN true).

Definition proven_false (condition : Expression) : bool :=
  ExpressionIsConstant condition (Value_BOOLEAN false)
  || ExpressionIsConstantOrNull condition (Value_BOOLEAN false).

(** The loop seen as one pass over the predicates that are still to be
    examined: [kept] are the predicates before the index, [rest] those from
    the index on.  [run_loop_scan] below shows that the loop is this pass. *)
Fixpoint scan (node_stats : option NodeStatistics) (child : LogicalOperator)
  (kept rest : list Expression) (statistics_map : gmap ColumnBinding BaseStatistics) : Result :=
  match rest with
  | [] => mkResult (LogicalFilter kept child) statistics_map node_stats
  | condition :: rest =>
      let '(condition, statistics_map) := PropagateExpression node_stats condition statistics_map in
      if proven_true condition then
        if bool_decide (kept ++ rest = []) then mkResult child statistics_map node_stats
        else scan node_stats child kept rest statistics_map
      else if proven_false condition then
        mkResult LogicalEmptyResult statistics_map (Some NodeStatistics_0_0)
      else scan node_stats child (kept ++ [condition]) rest
             (UpdateFilterStatistics condition statistics_map)
  end.

End Filter.

(** ** Concrete inputs for the examples *)

Definition c0 : ColumnBinding := mkColumnBinding 0 0.
Definition c1 : ColumnBinding := mkColumnBinding 0 1.

Definition int_stats (v : option ValidityStatistics) (lo hi : Z) : BaseStatistics :=
  mkBaseStatistics INTEGER v (Value_INTEGER lo) (Value_INTEGER hi).

Definition col (b : ColumnBinding) := BoundColumnRefExpression b.
Definition lit (n : Z) := BoundConstantExpression (Value_INTEGER n).

(** Node statistics of a child with at most 1000 rows. *)
Definition child_stats : option NodeStatistics := Some (mkNodeStatistics 1000 false).

(** Collaborators for the examples: the child is left as it is and reports
    [child_stats], expressions are left as they are, and a function named
    [constant_or_null] whose first argument is the constant is recognised. *)
#[local] Instance example_collaborators : Collaborators := {|
  PropagateStatistics_child := fun op m => (child_stats, op, m);
  PropagateExpression := fun _ e m => (e, m);
  IsConstantOrNull := fun name children val =>
    String.eqb name "constant_or_null" &&
    match children with
    | BoundConstantExpression v :: _ => Value_eq v val
    | _ => false
    end
|}.

Definition TRUE_ : Expression := BoundConstantExpression (Value_BOOLEAN true).
Definition FALSE_ : Expression := BoundConstantExpression (Value_BOOLEAN false).

(** ** Ranges *)

(** The statistics carry a range: they are numeric and both bounds are set. *)
Definition has_range (s : BaseStatistics) : bool :=
  IsNumeric (type s) && negb (IsNull (min s)) && negb (IsNull (max s)).

(** [min <= max], for statistics that carry a range. *)
Definition range_ordered (s : BaseStatistics) : bool :=
  negb (has_range s) || negb (Value_gt (min s) (max s)).

(** The equality case with every read resolved to the value it finds: the
    sequence of writes of [UpdateFilterStatistics_stats] in terms of the
    statistics [l] and [r] on entry. *)
Definition equal_writes (lb rb : ColumnBinding) (l r : BaseStatistics)
  (h : gmap ColumnBinding BaseStatistics) : gmap ColumnBinding BaseStatistics :=
  let h := alter (set_validity_stats not_null) lb h in
  let h := alter (set_validity_stats not_null) rb h in
  let h := if Value_gt (min l) (min r)
           then (* right.min = left.min *) alter (set_min (min l)) rb h
           else (* left.min = right.min *) alter (set_min (min r)) lb h in
  if Value_lt (max l) (max r)
  then (* right.max = left.max *) alter (set_max (max l)) rb h
  else (* left.max = right.max *) alter (set_max (max r)) lb h.

(** ** What narrowing keeps of an entry *)

(** An entry after narrowing, against the entry before: the type is the
    same, and a column known to hold no nulls stays so. *)
Definition narrowed (s s' : BaseStatistics) : Prop :=
  type s' = type s /\ (CanHaveNull s = false -> CanHaveNull s' = false).

(** The same for every entry of the map; no entry appears or disappears. *)
Definition map_narrowed (m m' : gmap ColumnBinding BaseStatistics) : Prop :=
  forall k : ColumnBinding, option_Forall2 narrowed (m !! k) (m' !! k).

(** A predicate the loop neither erases nor folds. *)
Definition undecided `{Collaborators} (condition : Expression) : bool :=
  negb (proven_true condition) && negb (proven_false condition).

(** ** Prepared statements (src/main/prepared_statement.cpp) *)

Module Prepared.

Inductive Exception :=
| InvalidInputException (msg : string)
| OtherException (msg : string).

(** How a call ends: it returns, it throws, or it has no defined behaviour
    (a null [shared_ptr] is dereferenced, which [D_ASSERT] guards against in
    debug builds). *)
Inductive outcome (A : Type) :=
| Returned (a : A)
| Thrown (e : Exception)
| Undefined.
Arguments Returned {A} a.
Arguments Thrown {A} e.
Arguments Undefined {A}.

(** The members of [PreparedStatementData] that the file reads; the statement
    type is kept as the code of its enumerator. *)
Record PreparedStatementData := mkPreparedStatementData {
  statement_type : N;
  types : list LogicalType;
  names : list string;
  allow_stream_result : bool
}.

(** The client the statement talks to, left open: the context and its
    [PendingQuery], the pending result with its [success] and [error] members
    and its [Execute], and the error result built by
    [make_unique<MaterializedQueryResult>(error)]. *)
Class Client := {
  ClientContext : Type;
  PendingQueryResult : Type;
  QueryResult : Type;
  pending_success : PendingQueryResult -> bool;
  pending_error : PendingQueryResult -> string;
  MaterializedQueryResult : string -> QueryResult;
  ClientContext_PendingQuery :
    ClientContext -> string -> option PreparedStatementData -> list Value ->
    outcome PendingQueryResult;
  PendingQueryResult_Execute : PendingQueryResult -> bool -> outcome QueryResult
}.

Section PreparedStatement.
Context `{Client}.

(** [context] and [data] are [shared_ptr]s, [None] is the null pointer.
    [n_param] is [None] where the constructor does not initialise it. *)
Record PreparedStatement := mkPreparedStatement {
  context : option ClientContext;
  data : option PreparedStatementData;
  query : string;
  success : bool;
  error : string;
  n_param : option N
}.

(** [PreparedStatement(context, data_p, query, n_param)] *)
Definition PreparedStatement_new (context : option ClientContext)
  (data_p : option PreparedStatementData) (query : string) (n_param : N) : PreparedStatement :=
  (* D_ASSERT(data || !success); *)
  mkPreparedStatement context data_p query true EmptyString (Some n_param).

(** [PreparedStatement(error)] *)
Definition PreparedStatement_error (error : string) : PreparedStatement :=
  mkPreparedStatement None None EmptyString false error None.

Definition with_data {A} (ps : PreparedStatement) (f : PreparedStatementData -> A) : outcome A :=
  (* D_ASSERT(data); *)
  match data ps with
  | Some d => Returned (f d)
  | None => Undefined
  end.

Definition ColumnCount (ps : PreparedStatement) : outcome N :=
  with_data ps (fun d => N.of_nat (length (types d))).

Definition GetStatementType (ps : PreparedStatement) : outcome N :=
  with_data ps statement_type.

Definition GetTypes (ps : PreparedStatement) : outcome (list LogicalType) :=
  with_data ps types.

Definition GetNames (ps : PreparedStatement) : outcome (list string) :=
  with_data ps names.

Definition PendingQuery (ps : PreparedStatement) (values : list Value)
  : outcome PendingQueryResult :=
  if negb (success ps) then
    Thrown (InvalidInputException
              "Attempting to execute an unsuccessfully prepared statement!")
  else
    (* D_ASSERT(data); *)
    match context ps with
    | Some ctx => ClientContext_PendingQuery ctx (query ps) (data ps) values
    | None => Undefined
    end.

(** [allow_stream_result && data->allow_stream_result]: [data] is read only
    when the first operand is true. *)
Definition stream_flag (ps : PreparedStatement) (allow_stream_result_arg : bool)
  : outcome bool :=
  if allow_stream_result_arg then with_data ps allow_stream_result
  else Returned false.

Definition Execute (ps : PreparedStatement) (values : list Value)
  (allow_stream_result_arg : bool) : outcome QueryResult :=
  match PendingQuery ps values with
  | Thrown e => Thrown e
  | Undefined => Undefined
  | Returned pending =>
      if negb (pending_success pending) then
        Returned (MaterializedQueryResult (pending_error pending))
      else
        match stream_flag ps allow_stream_result_arg with
        | Returned flag => PendingQueryResult_Execute pending flag
        | Thrown e => Thrown e
        | Undefined => Undefined
        end
  end.

End PreparedStatement.

(** A client for the examples: every query is pending with success, and the
    result of its execution says whether it streams. *)
#[local] Instance example_client : Client := {|
  ClientContext := unit;
  PendingQueryResult := bool * string;
  QueryResult := string;
  pending_success := fst;
  pending_error := snd;
  MaterializedQueryResult := fun e => e;
  ClientContext_PendingQuery := fun _ q _ _ =>
    if String.eqb q "bad" then Returned (false, "no such table")
    else Returned (true, EmptyString);
  PendingQueryResult_Execute := fun _ flag =>
    Returned (if flag then "stream" else "materialized")
|}.

Definition example_data (stream : bool) : PreparedStatementData :=
  mkPreparedStatementData 1 [INTEGER; VARCHAR] ["a"; "b"] stream.

End Prepared.

#[local] Existing Instance Prepared.example_client.

(** ** When narrowing keeps a range ordered *)

(** The bound that narrowing against [constant] writes lies on the right side
    of the bound it leaves: [min <= constant] for [<] and [<=] (a null
    constant leaves no range), [constant <= max] for [>] and [>=]; nothing is
    asked of [=] and of the other comparators. *)
Definition constant_fits (cmp : ExpressionType.t) (s : BaseStatistics) (constant : Value)
  : bool :=
  match cmp with
  | COMPARE_LESSTHAN | COMPARE_LESSTHANOREQUALTO =>
      IsNull constant || negb (Value_gt (min s) constant)
  | COMPARE_GREATERTHAN | COMPARE_GREATERTHANOREQUALTO =>
      negb (Value_gt constant (max s))
  | _ => true
  end.

(** The same for a pair: [left.min <= right.max] for [<] and [<=],
    [right.min <= left.max] for [>] and [>=], both for [=]; nothing is asked
    of the other comparators. *)
Definition pair_fits (cmp : ExpressionType.t) (l r : BaseStatistics) : bool :=
  match cmp with
  | COMPARE_LESSTHAN | COMPARE_LESSTHANOREQUALTO => negb (Value_gt (min l) (max r))
  | COMPARE_GREATERTHAN | COMPARE_GREATERTHANOREQUALTO => negb (Value_gt (min r) (max l))
  | COMPARE_EQUAL => negb (Value_gt (min l) (max r)) && negb (Value_gt (min r) (max l))
  | _ => true
  end.

(** ** The predicates a call examines *)

(** The predicates of the list as the loop examines them, in order: each one
    as its own propagation leaves it, in the statistics map that the
    predicates before it have left.  The list ends with the predicate that
    folds to false, if there is one.  This follows the pass [scan] turn by
    turn and records the expression on which the fold tests are made. *)
Fixpoint examined `{Collaborators} (node_stats : option NodeStatistics)
  (rest : list Expression) (statistics_map : gmap ColumnBinding BaseStatistics)
  : list Expression :=
  match rest with
  | [] => []
  | condition :: rest =>
      let '(condition, statistics_map) := PropagateExpression node_stats condition statistics_map in
      condition ::
        (if proven_true condition then examined node_stats rest statistics_map
         else if proven_false condition then []
         else examined node_stats rest (UpdateFilterStatistics condition statistics_map))
  end.

(** Collaborators for the examples whose expression propagation reads the
    statistics: [column > constant] becomes the constant true when the
    column's [min] is above the constant, the constant false when its [max]
    is not, and stays as it is otherwise. *)
Definition folding_collaborators : Collaborators := {|
  PropagateStatistics_child := fun op m => (child_stats, op, m);
  PropagateExpression := fun _ e m =>
    match e with
    | BoundComparisonExpression COMPARE_GREATERTHAN
        (BoundColumnRefExpression b) (BoundConstantExpression c) =>
        match m !! b with
        | Some s =>
            if has_range s && negb (IsNull c) then
              if Value_gt (min s) c then (TRUE_, m)
              else if negb (Value_gt (max s) c) then (FALSE_, m)
              else (e, m)
            else (e, m)
        | None => (e, m)
        end
    | _ => (e, m)
    end;
  IsConstantOrNull := fun _ _ _ => false
|}.

(** * Properties *)

Implicit Types (h m : gmap ColumnBinding BaseStatistics) (lb rb b : ColumnBinding).
Implicit Types (l r s : BaseStatistics).

(** ** Values *)

Lemma Value_gt_not_null (v w : Value) :
  IsNull v = false -> IsNull w = false ->
  Value_gt v w = (value_ v >? value_ w).
Proof. unfold IsNull, Value_gt. now intros -> ->. Qed.

Lemma Value_gt_irrefl (v : Value) : Value_gt v v = false.
Proof.
  unfold Value_gt. destruct (is_null v); [reflexivity|].
  rewrite Z.gtb_ltb. apply Z.ltb_irrefl.
Qed.

Lemma Value_gt_false_not_null (v w : Value) :
  IsNull v = false -> Value_gt v w = false -> IsNull w = false.
Proof.
  unfold IsNull, Value_gt. intros ->. now destruct (is_null w).
Qed.

(** ** Narrowing against a constant *)

Lemma set_validity_stats_idemp v s :
  set_validity_stats v (set_validity_stats v s) = set_validity_stats v s.
Proof. reflexivity. Qed.

Lemma SetStatisticsNotNull_Some m b s :
  m !! b = Some s ->
  SetStatisticsNotNull b m = <[b := set_validity_stats not_null s]> m.
Proof. intros Hb. unfold SetStatisticsNotNull. now rewrite Hb. Qed.

Lemma SetStatisticsNotNull_None m b :
  m !! b = None -> SetStatisticsNotNull b m = m.
Proof. intros Hb. unfold SetStatisticsNotNull. now rewrite Hb. Qed.

Lemma UpdateFilterStatistics_constant_no_range stats cmp constant :
  has_range stats = false ->
  UpdateFilterStatistics_constant stats cmp constant = set_validity_stats not_null stats.
Proof.
  unfold has_range, UpdateFilterStatistics_constant. cbn.
  destruct (IsNumeric (type stats)); cbn; [|reflexivity].
  destruct (IsNull (min stats)); cbn; [reflexivity|].
  destruct (IsNull (max stats)); cbn; [reflexivity|discriminate].
Qed.

(** C6: on numeric statistics with both bounds set, narrowing against a
    constant writes the constant itself: into [max] for [<] and [<=] alike
    (no off-by-one for the strict form) with [min] untouched, into [min] for
    [>] and [>=] with [max] untouched, into both for [=]; every other
    comparator leaves both bounds as they were. *)
Theorem C6_narrow_against_constant (stats : BaseStatistics)
  (cmp : ExpressionType.t) (constant : Value) :
  IsNumeric (type stats) = true ->
  IsNull (min stats) = false ->
  IsNull (max stats) = false ->
  let stats' := UpdateFilterStatistics_constant stats cmp constant in
  match cmp with
  | COMPARE_LESSTHAN | COMPARE_LESSTHANOREQUALTO =>
      max stats' = constant /\ min stats' = min stats
  | COMPARE_GREATERTHAN | COMPARE_GREATERTHANOREQUALTO =>
      min stats' = constant /\ max stats' = max stats
  | COMPARE_EQUAL => min stats' = constant /\ max stats' = constant
  | _ => min stats' = min stats /\ max stats' = max stats
  end.
Proof.
  intros Hnum Hmin Hmax. unfold UpdateFilterStatistics_constant. cbn.
  rewrite Hnum, Hmin, Hmax. cbn.
  destruct cmp; cbn; split; reflexivity.
Qed.

Lemma C6_witness :
  let stats := int_stats None 0 100 in
  let stats' := UpdateFilterStatistics_constant stats COMPARE_LESSTHAN (Value_INTEGER 50) in
  IsNumeric (type stats) = true /\
  max stats' = Value_INTEGER 50 /\ min stats' = min stats.
Proof.
  split; [reflexivity|].
  exact (C6_narrow_against_constant (int_stats None 0 100) COMPARE_LESSTHAN
           (Value_INTEGER 50) eq_refl eq_refl eq_refl).
Defined.

(** ** Dispatch of a comparison *)

(** C8: a comparison with the constant on the left updates the statistics map
    as the comparison with the column on the left does under the mirrored
    comparator, where the mirror swaps [<] with [>], [<=] with [>=] and keeps
    [=]. *)
Theorem C8_constant_on_the_left (c : Value) (b : ColumnBinding)
  (cmp : ExpressionType.t) (m : gmap ColumnBinding BaseStatistics) :
  UpdateFilterStatistics_comparison
    (BoundConstantExpression c) (BoundColumnRefExpression b) cmp m
  = UpdateFilterStatistics_comparison
      (BoundColumnRefExpression b) (BoundConstantExpression c)
      (FlipComparisionExpression cmp) m
  /\ FlipComparisionExpression COMPARE_LESSTHAN = COMPARE_GREATERTHAN
  /\ FlipComparisionExpression COMPARE_GREATERTHAN = COMPARE_LESSTHAN
  /\ FlipComparisionExpression COMPARE_LESSTHANOREQUALTO = COMPARE_GREATERTHANOREQUALTO
  /\ FlipComparisionExpression COMPARE_GREATERTHANOREQUALTO = COMPARE_LESSTHANOREQUALTO
  /\ FlipComparisionExpression COMPARE_EQUAL = COMPARE_EQUAL.
Proof.
  split; [|repeat split].
  unfold UpdateFilterStatistics_comparison.
  destruct (m !! b) as [s|] eqn:Hb.
  - rewrite (SetStatisticsNotNull_Some _ _ _ Hb). reflexivity.
  - rewrite (SetStatisticsNotNull_None _ _ Hb). reflexivity.
Qed.

(** What a comparison of a column with a constant does to the column's
    entry. *)
Lemma UpdateFilterStatistics_comparison_columnref_constant m b s cmp c :
  m !! b = Some s ->
  UpdateFilterStatistics_comparison
    (BoundColumnRefExpression b) (BoundConstantExpression c) cmp m
  = <[b := UpdateFilterStatistics_constant s cmp c]> m.
Proof.
  intros Hb. unfold UpdateFilterStatistics_comparison.
  rewrite (SetStatisticsNotNull_Some _ _ _ Hb).
  unfold UpdateFilterStatistics_columnref_constant.
  rewrite lookup_insert_eq, insert_insert_eq.
  reflexivity.
Qed.

Lemma UpdateFilterStatistics_comparison_columnref_absent m b cmp c :
  m !! b = None ->
  UpdateFilterStatistics_comparison
    (BoundColumnRefExpression b) (BoundConstantExpression c) cmp m = m.
Proof.
  intros Hb. unfold UpdateFilterStatistics_comparison.
  rewrite (SetStatisticsNotNull_None _ _ Hb).
  unfold UpdateFilterStatistics_columnref_constant. now rewrite Hb.
Qed.

(** ** Between *)

(** C7: a between expression updates the statistics map as its two
    comparisons do, dispatched in order: input against lower under the lower
    comparator, then input against upper under the upper comparator; this is
    what the two comparison predicates do one after the other.  For
    [col BETWEEN lo AND hi] (comparators [>=] and [<=]) the entry of the
    column ends without nulls, and when it carries a range it ends with
    [min = lo] and [max = hi], so [min >= lo] and [max <= hi]. *)
Theorem C7_between_as_two_comparisons (input lower upper : Expression)
  (lower_cmp upper_cmp : ExpressionType.t) (m : gmap ColumnBinding BaseStatistics) :
  UpdateFilterStatistics (BoundBetweenExpression input lower upper lower_cmp upper_cmp) m
  = UpdateFilterStatistics_comparison input upper upper_cmp
      (UpdateFilterStatistics_comparison input lower lower_cmp m)
  /\ UpdateFilterStatistics (BoundBetweenExpression input lower upper lower_cmp upper_cmp) m
     = UpdateFilterStatistics (BoundComparisonExpression upper_cmp input upper)
         (UpdateFilterStatistics (BoundComparisonExpression lower_cmp input lower) m)
  /\ forall (b : ColumnBinding) (lo hi : Value) (s : BaseStatistics),
       input = BoundColumnRefExpression b ->
       lower = BoundConstantExpression lo ->
       upper = BoundConstantExpression hi ->
       lower_cmp = COMPARE_GREATERTHANOREQUALTO ->
       upper_cmp = COMPARE_LESSTHANOREQUALTO ->
       m !! b = Some s ->
       exists s' : BaseStatistics,
         UpdateFilterStatistics
           (BoundBetweenExpression input lower upper lower_cmp upper_cmp) m !! b = Some s'
         /\ type s' = type s
         /\ validity_stats s' = not_null /\ CanHaveNull s' = false
         /\ (has_range s = true -> IsNull lo = false ->
             UpdateFilterStatistics
               (BoundBetweenExpression input lower upper lower_cmp upper_cmp) m
             = <[b := mkBaseStatistics (type s) not_null lo hi]> m
             /\ min s' = lo /\ max s' = hi
             /\ Value_gt lo (min s') = false /\ Value_gt (max s') hi = false).
Proof.
  split; [reflexivity|]. split; [reflexivity|].
  intros b lo hi s -> -> -> -> -> Hb.
  cbn [UpdateFilterStatistics LowerComparisonType UpperComparisonType].
  rewrite (UpdateFilterStatistics_comparison_columnref_constant _ _ _ _ _ Hb).
  rewrite (UpdateFilterStatistics_comparison_columnref_constant _ b
             (UpdateFilterStatistics_constant s COMPARE_GREATERTHANOREQUALTO lo))
    by apply lookup_insert_eq.
  rewrite insert_insert_eq, lookup_insert_eq.
  eexists. split; [reflexivity|].
  split; [|split; [|split]].
  - unfold UpdateFilterStatistics_constant. cbn.
    repeat match goal with |- context [if ?c then _ else _] => destruct c end;
      reflexivity.
  - unfold UpdateFilterStatistics_constant. cbn.
    repeat match goal with |- context [if ?c then _ else _] => destruct c end;
      reflexivity.
  - unfold CanHaveNull, UpdateFilterStatistics_constant. cbn.
    repeat match goal with |- context [if ?c then _ else _] => destruct c end;
      reflexivity.
  - intros Hr Hlo.
    unfold has_range in Hr.
    apply andb_prop in Hr as [Hr Hmax]. apply andb_prop in Hr as [Hnum Hmin].
    apply negb_true_iff in Hmin, Hmax.
    unfold UpdateFilterStatistics_constant. cbn.
    rewrite Hnum, Hmin, Hmax. cbn. rewrite Hnum, Hlo, Hmax. cbn.
    rewrite !Value_gt_irrefl. repeat split; reflexivity.
Qed.

Lemma C7_witness :
  let m : gmap ColumnBinding BaseStatistics :=
    {[ c0 := int_stats (Some (mkValidityStatistics true)) 0 100 ]} in
  let between := BoundBetweenExpression (col c0) (lit 10) (lit 20)
                   COMPARE_GREATERTHANOREQUALTO COMPARE_LESSTHANOREQUALTO in
  m !! c0 = Some (int_stats (Some (mkValidityStatistics true)) 0 100)
  /\ has_range (int_stats (Some (mkValidityStatistics true)) 0 100) = true
  /\ UpdateFilterStatistics between m = <[ c0 := int_stats not_null 10 20 ]> m.
Proof.
  cbv zeta. split; [reflexivity|]. split; [reflexivity|].
  destruct (proj2 (proj2 (C7_between_as_two_comparisons (col c0) (lit 10) (lit 20)
              COMPARE_GREATERTHANOREQUALTO COMPARE_LESSTHANOREQUALTO
              {[ c0 := int_stats (Some (mkValidityStatistics true)) 0 100 ]}))
            c0 (Value_INTEGER 10) (Value_INTEGER 20)
            (int_stats (Some (mkValidityStatistics true)) 0 100)
            eq_refl eq_refl eq_refl eq_refl eq_refl
            (eq_refl : ({[ c0 := int_stats (Some (mkValidityStatistics true)) 0 100 ]}
                          : gmap ColumnBinding BaseStatistics) !! c0
                       = Some (int_stats (Some (mkValidityStatistics true)) 0 100)))
    as (s' & _ & _ & _ & _ & Hrange).
  exact (proj1 (Hrange eq_refl eq_refl)).
Defined.

(** ** A column without recorded bounds *)

(** C3 as the code has it: on a numeric column whose statistics lack a bound,
    [col >= constant] leaves the type and both bounds of the entry, and every
    other entry, as they were; the validity statistics of the entry are
    replaced by "no nulls". *)
Theorem C3_no_bounds_sets_validity_only (m : gmap ColumnBinding BaseStatistics)
  (b : ColumnBinding) (s : BaseStatistics) (c : Value) :
  m !! b = Some s ->
  IsNumeric (type s) = true ->
  IsNull (min s) || IsNull (max s) = true ->
  UpdateFilterStatistics
    (BoundComparisonExpression COMPARE_GREATERTHANOREQUALTO
       (BoundColumnRefExpression b) (BoundConstantExpression c)) m
  = <[b := mkBaseStatistics (type s) not_null (min s) (max s)]> m.
Proof.
  intros Hb Hnum Hnull.
  cbn [UpdateFilterStatistics].
  rewrite (UpdateFilterStatistics_comparison_columnref_constant _ _ _ _ _ Hb).
  rewrite UpdateFilterStatistics_constant_no_range; [reflexivity|].
  unfold has_range. rewrite Hnum. cbn.
  apply orb_prop in Hnull as [-> | ->]; cbn; [reflexivity|].
  apply andb_false_r.
Qed.

Lemma C3_witness :
  let s := mkBaseStatistics INTEGER None (Value_NULL INTEGER) (Value_NULL INTEGER) in
  let m : gmap ColumnBinding BaseStatistics := {[ c0 := s ]} in
  m !! c0 = Some s /\
  UpdateFilterStatistics
    (BoundComparisonExpression COMPARE_GREATERTHANOREQUALTO (col c0) (lit 3)) m
  = <[ c0 := mkBaseStatistics INTEGER not_null (Value_NULL INTEGER) (Value_NULL INTEGER) ]> m.
Proof.
  split; [reflexivity|].
  exact (C3_no_bounds_sets_validity_only
           {[ c0 := mkBaseStatistics INTEGER None (Value_NULL INTEGER) (Value_NULL INTEGER) ]}
           c0 (mkBaseStatistics INTEGER None (Value_NULL INTEGER) (Value_NULL INTEGER))
           (Value_INTEGER 3) eq_refl eq_refl eq_refl).
Defined.

(** C3 as stated fails: the nullability flag of the entry is modified.  The
    column may hold nulls before [c0 >= 3] is propagated and may not after. *)
Lemma C3_counterexample :
  let s := mkBaseStatistics INTEGER (Some (mkValidityStatistics true))
             (Value_NULL INTEGER) (Value_NULL INTEGER) in
  let m : gmap ColumnBinding BaseStatistics := {[ c0 := s ]} in
  let m' := UpdateFilterStatistics
              (BoundComparisonExpression COMPARE_GREATERTHANOREQUALTO (col c0) (lit 3)) m in
  IsNumeric (type s) = true /\ IsNull (min s) = true /\ IsNull (max s) = true /\
  m !! c0 = Some s /\ CanHaveNull s = true /\
  (exists s', m' !! c0 = Some s' /\ CanHaveNull s' = false) /\
  m' <> m.
Proof.
  cbv zeta. repeat split.
  - eexists. split; [vm_compute; reflexivity|reflexivity].
  - intros Heq.
    apply (f_equal (fun x : gmap ColumnBinding BaseStatistics => CanHaveNull <$> x !! c0)) in Heq.
    vm_compute in Heq. discriminate Heq.
Qed.

(** ** Narrowing a pair of columns *)

(** A write to one field of an entry leaves the other fields of every entry
    as they were. *)
Lemma lookup_total_alter_Some (f : BaseStatistics -> BaseStatistics)
  (k : ColumnBinding) (h : gmap ColumnBinding BaseStatistics) (s : BaseStatistics) :
  h !! k = Some s -> alter f k h !!! k = f s.
Proof. intros Hk. rewrite lookup_total_alter_eq, Hk. reflexivity. Qed.

Lemma lookup_total_alter_frame {A} (proj : BaseStatistics -> A)
  (f : BaseStatistics -> BaseStatistics) (k k' : ColumnBinding)
  (h : gmap ColumnBinding BaseStatistics) :
  (forall s, proj (f s) = proj s) ->
  proj (alter f k h !!! k') = proj (h !!! k').
Proof.
  intros Hf. destruct (decide (k = k')) as [->|Hne].
  - rewrite lookup_total_alter_eq, lookup_total_alt.
    destruct (h !! k') as [s|]; cbn; [apply Hf|reflexivity].
  - rewrite lookup_total_alter_ne by exact Hne. reflexivity.
Qed.

(** The entries of the two references once both validity statistics have been
    replaced, whether or not the references alias. *)
Lemma lookup_total_validity_l h lb rb l :
  h !! lb = Some l ->
  alter (set_validity_stats not_null) rb (alter (set_validity_stats not_null) lb h) !!! lb
  = set_validity_stats not_null l.
Proof.
  intros Hl.
  assert (alter (set_validity_stats not_null) lb h !! lb
          = Some (set_validity_stats not_null l)) as Hl'
    by (rewrite lookup_alter_eq, Hl; reflexivity).
  destruct (decide (rb = lb)) as [->|Hne].
  - rewrite (lookup_total_alter_Some _ _ _ _ Hl'). reflexivity.
  - rewrite lookup_total_alter_ne by exact Hne.
    apply lookup_total_correct, Hl'.
Qed.

Lemma lookup_total_validity_r h lb rb r :
  h !! rb = Some r ->
  alter (set_validity_stats not_null) rb (alter (set_validity_stats not_null) lb h) !!! rb
  = set_validity_stats not_null r.
Proof.
  intros Hr. destruct (decide (lb = rb)) as [->|Hne].
  - assert (alter (set_validity_stats not_null) rb h !! rb
            = Some (set_validity_stats not_null r)) as Hr'
      by (rewrite lookup_alter_eq, Hr; reflexivity).
    rewrite (lookup_total_alter_Some _ _ _ _ Hr'). reflexivity.
  - assert (alter (set_validity_stats not_null) lb h !! rb = Some r) as Hr'
      by (rewrite lookup_alter_ne by exact Hne; exact Hr).
    rewrite (lookup_total_alter_Some _ _ _ _ Hr'). reflexivity.
Qed.

Lemma UpdateFilterStatistics_stats_equal h lb rb l r :
  h !! lb = Some l -> h !! rb = Some r ->
  IsNumeric (type l) = true ->
  IsNull (min l) = false -> IsNull (max l) = false ->
  IsNull (min r) = false -> IsNull (max r) = false ->
  UpdateFilterStatistics_stats lb rb COMPARE_EQUAL h = equal_writes lb rb l r h.
Proof.
  intros Hl Hr Hnum Hlmin Hlmax Hrmin Hrmax.
  unfold UpdateFilterStatistics_stats, equal_writes. cbv zeta.
  rewrite (lookup_total_validity_l _ _ _ _ Hl), (lookup_total_validity_r _ _ _ _ Hr).
  cbn [type min max set_validity_stats].
  rewrite Hnum, Hlmin, Hlmax, Hrmin, Hrmax. cbn [negb orb].
  destruct (Value_gt (min l) (min r));
    rewrite !(lookup_total_alter_frame max) by reflexivity;
    rewrite (lookup_total_correct _ _ _ Hl), (lookup_total_correct _ _ _ Hr);
    reflexivity.
Qed.

(** C1: equality narrowing of two columns that both carry a range.  Both
    sides end with the larger of the two mins and the smaller of the two
    maxes.  The winning bound is written into the other side: [right.min]
    is assigned [left.min] exactly when [left.min > right.min], otherwise
    [left.min] is assigned [right.min]; [right.max] is assigned [left.max]
    exactly when [left.max < right.max], otherwise [left.max] is assigned
    [right.max] (the writes are those of [equal_writes]).  The bounds that
    result are equal as typed values, so on a tie the value that was copied
    is the one the entry holds. *)
Theorem C1_equality_narrowing h lb rb l r :
  h !! lb = Some l -> h !! rb = Some r ->
  IsNumeric (type l) = true -> IsNumeric (type r) = true ->
  IsNull (min l) = false -> IsNull (max l) = false ->
  IsNull (min r) = false -> IsNull (max r) = false ->
  let h' := UpdateFilterStatistics_stats lb rb COMPARE_EQUAL h in
  let lo := if Value_gt (min l) (min r) then min l else min r in
  let hi := if Value_lt (max l) (max r) then max l else max r in
  h' = equal_writes lb rb l r h
  /\ min (h' !!! lb) = lo /\ min (h' !!! rb) = lo
  /\ max (h' !!! lb) = hi /\ max (h' !!! rb) = hi
  /\ value_ lo = Z.max (value_ (min l)) (value_ (min r))
  /\ value_ hi = Z.min (value_ (max l)) (value_ (max r)).
Proof.
  intros Hl Hr Hnuml Hnumr Hlmin Hlmax Hrmin Hrmax h' lo hi.
  assert (h' = equal_writes lb rb l r h) as Heq
    by (apply UpdateFilterStatistics_stats_equal; assumption).
  split; [exact Heq|].
  assert (Value_gt (min l) (min r) = (value_ (min l) >? value_ (min r))) as Hgt
    by (apply Value_gt_not_null; assumption).
  assert (Value_lt (max l) (max r) = (value_ (max r) >? value_ (max l))) as Hlt
    by (apply Value_gt_not_null; assumption).
  repeat split.
  1-4: rewrite Heq; unfold equal_writes; subst lo hi;
    rewrite lookup_total_alt;
    destruct (Value_gt (min l) (min r)) eqn:Egt, (Value_lt (max l) (max r)) eqn:Elt;
    rewrite !lookup_alter; repeat case_decide; simplify_eq;
    rewrite ?Hl, ?Hr; try reflexivity;
    unfold Value_lt in *; rewrite Value_gt_irrefl in *; discriminate.
  - subst lo. rewrite Hgt. destruct (Z.gtb_spec (value_ (min l)) (value_ (min r))); lia.
  - subst hi. rewrite Hlt. destruct (Z.gtb_spec (value_ (max r)) (value_ (max l))); lia.
Qed.

Lemma has_range_set_validity_stats v s :
  has_range (set_validity_stats v s) = has_range s.
Proof. reflexivity. Qed.

Lemma has_range_true s :
  has_range s = true ->
  IsNumeric (type s) = true /\ IsNull (min s) = false /\ IsNull (max s) = false.
Proof.
  unfold has_range. intros Hr.
  apply andb_prop in Hr as [Hr Hmax]. apply andb_prop in Hr as [Hnum Hmin].
  apply negb_true_iff in Hmin, Hmax. auto.
Qed.

Lemma UpdateFilterStatistics_stats_no_range h lb rb l r cmp :
  h !! lb = Some l -> h !! rb = Some r ->
  IsNumeric (type l) && negb (IsNull (min l)) && negb (IsNull (max l))
    && negb (IsNull (min r)) && negb (IsNull (max r)) = false ->
  UpdateFilterStatistics_stats lb rb cmp h
  = alter (set_validity_stats not_null) rb (alter (set_validity_stats not_null) lb h).
Proof.
  intros Hl Hr Hno.
  unfold UpdateFilterStatistics_stats. cbv zeta.
  rewrite (lookup_total_validity_l _ _ _ _ Hl), (lookup_total_validity_r _ _ _ _ Hr).
  cbn [type min max set_validity_stats].
  destruct (IsNumeric (type l)); cbn; [|reflexivity].
  destruct (IsNull (min l)); cbn; [reflexivity|].
  destruct (IsNull (max l)); cbn; [reflexivity|].
  destruct (IsNull (min r)); cbn; [reflexivity|].
  destruct (IsNull (max r)); cbn; [reflexivity|discriminate].
Qed.

Ltac resolve_reads Hl Hr :=
  repeat match goal with
         | |- _ => rewrite !(lookup_total_alter_frame min) by reflexivity
         | |- _ => rewrite !(lookup_total_alter_frame max) by reflexivity
         | |- _ => rewrite (lookup_total_correct _ _ _ Hl)
         | |- _ => rewrite (lookup_total_correct _ _ _ Hr)
         | |- context [if Value_gt ?a ?b then _ else _] =>
             let E := fresh "E" in destruct (Value_gt a b) eqn:E
         | |- context [if Value_lt ?a ?b then _ else _] =>
             let E := fresh "E" in destruct (Value_lt a b) eqn:E
         end.

Ltac read_entries Hl Hr :=
  rewrite ?lookup_total_alt, ?lookup_alter; repeat case_decide; simplify_eq;
  rewrite ?Hl, ?Hr; cbn [default fmap option_fmap option_map id].

Ltac to_Z :=
  unfold Value_lt in *;
  repeat match goal with
         | E : Value_gt _ _ = _ |- _ => rewrite Value_gt_not_null in E by assumption
         end;
  rewrite ?Value_gt_not_null by assumption;
  repeat match goal with
         | E : (_ >? _) = false |- _ => rewrite Z.gtb_ltb in E; apply Z.ltb_ge in E
         | E : (_ >? _) = true |- _ => rewrite Z.gtb_ltb in E; apply Z.ltb_lt in E
         end.

(** The guard of [UpdateFilterStatistics_stats] passes when both entries
    carry a range. *)
Lemma UpdateFilterStatistics_stats_ranges h lb rb l r cmp :
  h !! lb = Some l -> h !! rb = Some r ->
  has_range l = true -> has_range r = true ->
  UpdateFilterStatistics_stats lb rb cmp h
  = let h := alter (set_validity_stats not_null) rb
               (alter (set_validity_stats not_null) lb h) in
    match cmp with
    | COMPARE_LESSTHAN | COMPARE_LESSTHANOREQUALTO =>
        let h := if Value_gt (max l) (max r) then alter (set_max (max r)) lb h else h in
        if Value_lt (min r) (min l) then alter (set_min (min l)) rb h else h
    | COMPARE_GREATERTHAN | COMPARE_GREATERTHANOREQUALTO =>
        let h := if Value_gt (max r) (max l) then alter (set_max (max l)) rb h else h in
        if Value_lt (min l) (min r) then alter (set_min (min r)) lb h else h
    | COMPARE_EQUAL => 
        let h := if Value_gt (min l) (min r)
                 then alter (set_min (min l)) rb h else alter (set_min (min r)) lb h in
        if Value_lt (max l) (max r)
        then alter (set_max (max l)) rb h else alter (set_max (max r)) lb h
    | _ => h
    end.
Proof.
  intros Hl Hr Hrl Hrr.
  destruct (has_range_true _ Hrl) as (Hnl & Hlmin & Hlmax).
  destruct (has_range_true _ Hrr) as (Hnr & Hrmin & Hrmax).
  unfold UpdateFilterStatistics_stats. cbv zeta.
  rewrite (lookup_total_validity_l _ _ _ _ Hl), (lookup_total_validity_r _ _ _ _ Hr).
  cbn [type min max set_validity_stats].
  rewrite Hnl, Hlmin, Hlmax, Hrmin, Hrmax. cbn [negb orb].
  destruct cmp; try reflexivity; resolve_reads Hl Hr; reflexivity.
Qed.

Lemma UpdateFilterStatistics_constant_range stats (cmp : ExpressionType.t) (constant : Value) :
  has_range stats = true ->
  UpdateFilterStatistics_constant stats cmp constant
  = match cmp with
    | COMPARE_LESSTHAN | COMPARE_LESSTHANOREQUALTO =>
        mkBaseStatistics (type stats) not_null (min stats) constant
    | COMPARE_GREATERTHAN | COMPARE_GREATERTHANOREQUALTO =>
        mkBaseStatistics (type stats) not_null constant (max stats)
    | COMPARE_EQUAL => mkBaseStatistics (type stats) not_null constant constant
    | _ => mkBaseStatistics (type stats) not_null (min stats) (max stats)
    end.
Proof.
  intros Hr. destruct (has_range_true _ Hr) as (Hnum & Hmin & Hmax).
  unfold UpdateFilterStatistics_constant. cbn.
  rewrite Hnum, Hmin, Hmax. cbn. destruct cmp; reflexivity.
Qed.

(** Narrowing against a constant leaves an ordered range exactly when the
    constant fits. *)
Lemma range_ordered_constant_iff stats (cmp : ExpressionType.t) (constant : Value) :
  range_ordered stats = true ->
  range_ordered (UpdateFilterStatistics_constant stats cmp constant) = true
  <-> (has_range stats = true -> constant_fits cmp stats constant = true).
Proof.
  intros Hord.
  destruct (has_range stats) eqn:Hr.
  - destruct (has_range_true _ Hr) as (Hnum & Hmin & Hmax).
    unfold range_ordered in Hord. rewrite Hr in Hord. cbn in Hord.
    rewrite (UpdateFilterStatistics_constant_range _ _ _ Hr).
    destruct cmp; unfold range_ordered, has_range, constant_fits; cbn;
      rewrite ?Hnum, ?Hmin, ?Hmax, ?Hord; cbn;
      destruct (IsNull constant) eqn:Hc; cbn; rewrite ?andb_false_r; cbn;
      rewrite ?Value_gt_irrefl; cbn;
      try (split; [intros _ _; reflexivity|intros _; reflexivity]);
      try (split; [intros H _; exact H|intros H; exact (H eq_refl)]).
    all: unfold Value_gt, IsNull in *; rewrite Hc; cbn;
      split; [intros _ _; reflexivity|intros _; reflexivity].
  - rewrite (UpdateFilterStatistics_constant_no_range _ _ _ Hr).
    unfold range_ordered. rewrite has_range_set_validity_stats, Hr. cbn.
    split; [intros _ Hfalse; discriminate Hfalse|intros _; reflexivity].
Qed.

(** Narrowing a pair of same-typed columns leaves two ordered ranges exactly
    when the pair fits. *)
Lemma range_ordered_stats_iff h lb rb l r (cmp : ExpressionType.t) :
  h !! lb = Some l -> h !! rb = Some r ->
  type l = type r ->
  range_ordered l = true -> range_ordered r = true ->
  (range_ordered (UpdateFilterStatistics_stats lb rb cmp h !!! lb) = true
   /\ range_ordered (UpdateFilterStatistics_stats lb rb cmp h !!! rb) = true)
  <-> (has_range l = true -> has_range r = true -> pair_fits cmp l r = true).
Proof.
  intros Hl Hr Hty Hol Hor.
  destruct (IsNumeric (type l) && negb (IsNull (min l)) && negb (IsNull (max l))
            && negb (IsNull (min r)) && negb (IsNull (max r))) eqn:Hcond.
  - apply andb_prop in Hcond as [Hcond Hrmax]. apply andb_prop in Hcond as [Hrl Hrmin].
    change (has_range l = true) in Hrl.
    assert (has_range r = true) as Hrr
      by (unfold has_range; rewrite <- Hty, Hrmin, Hrmax;
          apply has_range_true in Hrl as (-> & _); reflexivity).
    clear Hrmin Hrmax.
    unfold range_ordered in Hol, Hor. rewrite Hrl in Hol. rewrite Hrr in Hor.
    cbn in Hol, Hor. apply negb_true_iff in Hol, Hor.
    destruct (has_range_true _ Hrl) as (Hnl & Hlmin & Hlmax).
    destruct (has_range_true _ Hrr) as (Hnr & Hrmin & Hrmax).
    rewrite (UpdateFilterStatistics_stats_ranges _ _ _ _ _ _ Hl Hr Hrl Hrr). cbv zeta.
    rewrite Hrl, Hrr.
    destruct cmp; unfold pair_fits;
      repeat match goal with
             | |- context [if ?c then _ else _] => let E := fresh "E" in destruct c eqn:E
             end.
    all: read_entries Hl Hr.
    all: unfold range_ordered, has_range;
      cbn [min max type set_min set_max set_validity_stats];
      rewrite ?Hnl, ?Hnr, ?Hlmin, ?Hlmax, ?Hrmin, ?Hrmax; cbn [negb andb orb].
    all: to_Z; rewrite ?andb_true_iff, ?negb_true_iff, ?Z.gtb_ltb, ?Z.ltb_ge.
    all: split; [intros [? ?] _ _|intros Hfit; specialize (Hfit eq_refl eq_refl)];
      try reflexivity; try lia.
  - rewrite (UpdateFilterStatistics_stats_no_range _ _ _ _ _ _ Hl Hr Hcond).
    rewrite (lookup_total_validity_l _ _ _ _ Hl), (lookup_total_validity_r _ _ _ _ Hr).
    unfold range_ordered in *. rewrite !has_range_set_validity_stats.
    split; [|intros _; auto].
    intros _ Hrl Hrr. exfalso.
    destruct (has_range_true _ Hrl) as (Hnl & Hlmin & Hlmax).
    destruct (has_range_true _ Hrr) as (Hnr & Hrmin & Hrmax).
    rewrite Hnl, Hlmin, Hlmax, Hrmin, Hrmax in Hcond. discriminate Hcond.
Qed.

(** C2 as the code has it: narrowing performs no emptiness check, and when
    every range on entry satisfies [min <= max] the ranges it leaves do so
    exactly under a condition that depends on the comparator.  Against a
    constant: [min <= constant] (or a null constant) for [<] and [<=],
    [constant <= max] for [>] and [>=], none for [=] and for the other
    comparators.  For a pair of columns of the same type: [left.min <=
    right.max] for [<] and [<=], [right.min <= left.max] for [>] and [>=],
    both for [=], none for the other comparators. *)
Theorem C2_min_le_max_kept_exactly_when :
  (forall (stats : BaseStatistics) (cmp : ExpressionType.t) (constant : Value),
      range_ordered stats = true ->
      range_ordered (UpdateFilterStatistics_constant stats cmp constant) = true
      <-> (has_range stats = true -> constant_fits cmp stats constant = true))
  /\ (forall (h : gmap ColumnBinding BaseStatistics) (lb rb : ColumnBinding)
             (l r : BaseStatistics) (cmp : ExpressionType.t),
        h !! lb = Some l -> h !! rb = Some r ->
        type l = type r ->
        range_ordered l = true -> range_ordered r = true ->
        (range_ordered (UpdateFilterStatistics_stats lb rb cmp h !!! lb) = true
         /\ range_ordered (UpdateFilterStatistics_stats lb rb cmp h !!! rb) = true)
        <-> (has_range l = true -> has_range r = true -> pair_fits cmp l r = true)).
Proof.
  split.
  - intros stats cmp constant. apply range_ordered_constant_iff.
  - intros h lb rb l r cmp. apply range_ordered_stats_iff.
Qed.

Lemma C2_witness :
  let h : gmap ColumnBinding BaseStatistics :=
    <[ c0 := int_stats None 0 10 ]> {[ c1 := int_stats None 20 30 ]} in
  range_ordered (UpdateFilterStatistics_constant (int_stats None 0 100)
                   COMPARE_LESSTHANOREQUALTO (Value_INTEGER 200)) = true
  /\ range_ordered (UpdateFilterStatistics_constant (int_stats None 0 100)
                      COMPARE_EQUAL (Value_INTEGER 200)) = true
  /\ range_ordered (UpdateFilterStatistics_stats c0 c1 COMPARE_LESSTHAN h !!! c0) = true
  /\ range_ordered (UpdateFilterStatistics_stats c0 c1 COMPARE_LESSTHAN h !!! c1) = true
  /\ pair_fits COMPARE_EQUAL (int_stats None 0 10) (int_stats None 20 30) = false.
Proof.
  cbv zeta.
  split.
  { exact (proj2 (proj1 C2_min_le_max_kept_exactly_when (int_stats None 0 100)
                    COMPARE_LESSTHANOREQUALTO (Value_INTEGER 200) eq_refl)
             (fun _ => eq_refl)). }
  split.
  { exact (proj2 (proj1 C2_min_le_max_kept_exactly_when (int_stats None 0 100)
                    COMPARE_EQUAL (Value_INTEGER 200) eq_refl)
             (fun _ => eq_refl)). }
  pose proof (proj2 (proj2 C2_min_le_max_kept_exactly_when
                (<[ c0 := int_stats None 0 10 ]> {[ c1 := int_stats None 20 30 ]})
                c0 c1 (int_stats None 0 10) (int_stats None 20 30) COMPARE_LESSTHAN
                eq_refl eq_refl eq_refl eq_refl eq_refl)
              (fun _ _ => eq_refl)) as [H1 H2].
  split; [exact H1|]. split; [exact H2|]. reflexivity.
Defined.

(** C2 as stated fails.  Two columns with the ordered ranges [0, 10] and
    [20, 30] both end with [min = 20] and [max = 10] under [=]; a column with
    the ordered range [0, 100] ends with [min = 200] and [max = 100] under
    [> 200]. *)
Lemma C2_counterexample :
  let h : gmap ColumnBinding BaseStatistics :=
    <[ c0 := int_stats None 0 10 ]> {[ c1 := int_stats None 20 30 ]} in
  let h' := UpdateFilterStatistics_stats c0 c1 COMPARE_EQUAL h in
  let s' := UpdateFilterStatistics_constant (int_stats None 0 100)
              COMPARE_GREATERTHAN (Value_INTEGER 200) in
  range_ordered (h !!! c0) = true /\ range_ordered (h !!! c1) = true
  /\ h' !!! c0 = int_stats not_null 20 10 /\ h' !!! c1 = int_stats not_null 20 10
  /\ range_ordered (h' !!! c0) = false /\ range_ordered (h' !!! c1) = false
  /\ range_ordered (int_stats None 0 100) = true
  /\ s' = int_stats not_null 200 100 /\ range_ordered s' = false.
Proof. cbv zeta. repeat split; vm_compute; reflexivity. Qed.

Lemma C1_witness :
  let h : gmap ColumnBinding BaseStatistics :=
    <[ c0 := int_stats None (-50) 250 ]> {[ c1 := int_stats None (-100) 100 ]} in
  let h' := UpdateFilterStatistics_stats c0 c1 COMPARE_EQUAL h in
  h !! c0 = Some (int_stats None (-50) 250) /\ h !! c1 = Some (int_stats None (-100) 100)
  /\ min (h' !!! c0) = Value_INTEGER (-50) /\ min (h' !!! c1) = Value_INTEGER (-50)
  /\ max (h' !!! c0) = Value_INTEGER 100 /\ max (h' !!! c1) = Value_INTEGER 100.
Proof.
  cbv zeta. split; [reflexivity|]. split; [reflexivity|].
  exact (let H := C1_equality_narrowing
                    (<[ c0 := int_stats None (-50) 250 ]> {[ c1 := int_stats None (-100) 100 ]})
                    c0 c1 (int_stats None (-50) 250) (int_stats None (-100) 100)
                    eq_refl eq_refl eq_refl eq_refl eq_refl eq_refl eq_refl eq_refl in
         conj (proj1 (proj2 H))
           (conj (proj1 (proj2 (proj2 H)))
              (conj (proj1 (proj2 (proj2 (proj2 H))))
                 (proj1 (proj2 (proj2 (proj2 (proj2 H)))))))).
Defined.

(** On a tie the write goes to the left side: with [left.min = right.min] as
    numbers, [left.min] receives the value held by [right.min], here
    recognisable by its type tag. *)
Example equality_tie_writes_left :
  let h : gmap ColumnBinding BaseStatistics :=
    <[ c0 := mkBaseStatistics BIGINT None (mkValue BIGINT false 5) (mkValue BIGINT false 9) ]>
      {[ c1 := mkBaseStatistics BIGINT None (mkValue INTEGER false 5) (mkValue INTEGER false 9) ]} in
  let h' := UpdateFilterStatistics_stats c0 c1 COMPARE_EQUAL h in
  min (h' !!! c0) = mkValue INTEGER false 5 /\ min (h' !!! c1) = mkValue INTEGER false 5
  /\ max (h' !!! c0) = mkValue INTEGER false 9 /\ max (h' !!! c1) = mkValue INTEGER false 9.
Proof. cbv zeta. repeat split; vm_compute; reflexivity. Qed.

(** ** The loop over the predicates *)

Lemma idx_incr_decr (i : N) : (i < idx_t_modulus)%N -> idx_incr (idx_decr i) = i.
Proof.
  intros Hi. unfold idx_incr, idx_decr.
  destruct (N.eq_dec i 0) as [->|Hpos].
  - reflexivity.
  - replace (i + idx_t_modulus - 1)%N with ((i - 1) + 1 * idx_t_modulus)%N by lia.
    rewrite N.Div0.mod_add.
    rewrite (N.mod_small (i - 1)) by lia.
    replace (i - 1 + 1)%N with i by lia.
    apply N.mod_small, Hi.
Qed.

Lemma idx_incr_small (i : N) : (i + 1 < idx_t_modulus)%N -> idx_incr i = (i + 1)%N.
Proof. intros Hi. unfold idx_incr. apply N.mod_small, Hi. Qed.

Lemma list_insert_middle {A} (l1 l2 : list A) (x y : A) :
  <[length l1 := y]> (l1 ++ x :: l2) = l1 ++ y :: l2.
Proof.
  replace (length l1) with (length l1 + 0)%nat by lia.
  rewrite insert_app_r. reflexivity.
Qed.

Section FilterProperties.
Context `{Collaborators}.
Variables (node_stats : option NodeStatistics) (child : LogicalOperator).

Lemma proven_false_not_true (condition : Expression) :
  proven_false condition = true -> proven_true condition = false.
Proof.
  unfold proven_false, proven_true.
  destruct condition as [| v | | |]; cbn; try reflexivity.
  unfold Value_eq. cbn. destruct (is_null v); cbn; [reflexivity|].
  rewrite orb_false_r. intros Hf. apply Z.eqb_eq in Hf. rewrite Hf. reflexivity.
Qed.

(** One turn of the loop at index [length kept] of [kept ++ condition :: rest]. *)
Lemma loop_iteration_at (kept rest : list Expression) (condition : Expression) m :
  (size (kept ++ condition :: rest) < idx_t_modulus)%N ->
  loop_iteration node_stats child
    (mkLoopState (size kept) (kept ++ condition :: rest) m)
  = let '(condition', m1) := PropagateExpression node_stats condition m in
    if proven_true condition' then
      if bool_decide (kept ++ rest = []) then Done (mkResult child m1 node_stats)
      else Next (mkLoopState (size kept) (kept ++ rest) m1)
    else if proven_false condition' then
      Done (mkResult LogicalEmptyResult m1 (Some NodeStatistics_0_0))
    else Next (mkLoopState (size (kept ++ [condition'])) ((kept ++ [condition']) ++ rest)
                 (UpdateFilterStatistics condition' m1)).
Proof.
  intros Hsize. unfold loop_iteration, size in *. cbn [idx exprs smap].
  rewrite length_app in Hsize. cbn [length] in Hsize.
  assert ((N.of_nat (length kept) <? N.of_nat (length (kept ++ condition :: rest)))%N = true) as ->.
  { apply N.ltb_lt. rewrite length_app. cbn [length]. lia. }
  rewrite Nat2N.id, list_lookup_middle by reflexivity.
  destruct (PropagateExpression node_stats condition m) as [condition' m1].
  rewrite list_insert_middle, delete_middle.
  fold (proven_true condition'). fold (proven_false condition').
  destruct (proven_true condition').
  - rewrite idx_incr_decr by lia. reflexivity.
  - destruct (proven_false condition'); [reflexivity|].
    rewrite idx_incr_small by lia.
    rewrite length_app, <- app_assoc. cbn [length app].
    do 2 f_equal. lia.
Qed.

Lemma loop_iteration_end (kept : list Expression) m :
  loop_iteration node_stats child (mkLoopState (size kept) kept m)
  = Done (mkResult (LogicalFilter kept child) m node_stats).
Proof.
  unfold loop_iteration. cbn [idx exprs smap]. now rewrite N.ltb_irrefl.
Qed.

(** The loop is the pass [scan] over the predicates from the index on, and it
    ends within one turn per predicate plus one. *)
Lemma run_loop_scan (rest kept : list Expression) m (fuel : nat) :
  (length rest < fuel)%nat ->
  (size (kept ++ rest) < idx_t_modulus)%N ->
  run_loop fuel node_stats child (mkLoopState (size kept) (kept ++ rest) m)
  = Some (scan node_stats child kept rest m).
Proof.
  revert kept m fuel.
  induction rest as [|condition rest IH]; intros kept m fuel Hfuel Hsize;
    (destruct fuel as [|fuel]; [cbn in Hfuel; lia|]); cbn [run_loop scan].
  - rewrite app_nil_r, loop_iteration_end. reflexivity.
  - rewrite loop_iteration_at by exact Hsize.
    cbn [length] in Hfuel.
    assert (size (kept ++ rest) < idx_t_modulus)%N as Hsize'.
    { unfold size in *. rewrite length_app in *. cbn [length] in Hsize. lia. }
    destruct (PropagateExpression node_stats condition m) as [condition' m1].
    destruct (proven_true condition').
    + destruct (bool_decide (kept ++ rest = [])); [reflexivity|].
      apply IH; [lia|exact Hsize'].
    + destruct (proven_false condition'); [reflexivity|].
      apply IH; [lia|].
      unfold size in *. rewrite !length_app in *. cbn [length] in *. lia.
Qed.

(** Some predicate folded to false (or the child is empty) exactly when the
    slot holds the sentinel; otherwise the child's node statistics are
    returned. *)
Lemma scan_returned (rest kept : list Expression) m :
  is_empty_result child = false ->
  let r := scan node_stats child kept rest m in
  if is_empty_result (node r) then returned r = Some NodeStatistics_0_0
  else returned r = node_stats.
Proof.
  intros Hchild. revert kept m.
  induction rest as [|condition rest IH]; intros kept m; cbn [scan].
  - reflexivity.
  - destruct (PropagateExpression node_stats condition m) as [condition' m1].
    destruct (proven_true condition').
    + destruct (bool_decide (kept ++ rest = [])); [|apply IH].
      cbn. rewrite Hchild. reflexivity.
    + destruct (proven_false condition'); [reflexivity|apply IH].
Qed.

(** A predicate that folds to false ends the pass where it stands, whatever
    follows it. *)
Lemma scan_false_at (pre suf kept : list Expression) (condition condition' : Expression) m m1 :
  is_empty_result child = false ->
  PropagateExpression node_stats condition
    (statistics (scan node_stats child kept pre m)) = (condition', m1) ->
  proven_false condition' = true ->
  scan node_stats child kept (pre ++ condition :: suf) m
  = if is_empty_result (node (scan node_stats child kept pre m))
    then scan node_stats child kept pre m
    else mkResult LogicalEmptyResult m1 (Some NodeStatistics_0_0).
Proof.
  intros Hchild. revert kept m.
  induction pre as [|p pre IH]; intros kept m Hprop Hfalse; cbn [scan app] in *.
  - cbn [statistics node is_empty_result] in *. rewrite Hprop.
    rewrite (proven_false_not_true _ Hfalse), Hfalse. reflexivity.
  - destruct (PropagateExpression node_stats p m) as [p' mp].
    destruct (proven_true p').
    + rewrite (bool_decide_eq_false_2 (kept ++ pre ++ condition :: suf = []))
        by (intros Hnil; apply app_eq_nil in Hnil as [_ Hnil];
            apply app_eq_nil in Hnil as [_ Hnil]; discriminate Hnil).
      destruct (bool_decide (kept ++ pre = [])) eqn:Hempty.
      * apply bool_decide_eq_true in Hempty.
        apply app_eq_nil in Hempty as [-> ->].
        cbn [statistics node scan app] in *. rewrite Hchild, Hprop.
        rewrite (proven_false_not_true _ Hfalse), Hfalse. reflexivity.
      * apply IH; assumption.
    + destruct (proven_false p'); [reflexivity|].
      apply IH; assumption.
Qed.

End FilterProperties.

(** [PropagateStatistics] of a filter returns, and what it returns is the pass
    over the predicate list that follows the propagation of the child. *)
Lemma PropagateStatistics_filter_scan `{Collaborators}
  (expressions : list Expression) (child : LogicalOperator) m :
  (size expressions < idx_t_modulus)%N ->
  PropagateStatistics_filter expressions child m
  = Some (let '(node_stats, child', m') := PropagateStatistics_child child m in
          if is_empty_result child'
          then mkResult LogicalEmptyResult m' (Some NodeStatistics_0_0)
          else scan node_stats child' [] expressions m').
Proof.
  intros Hsize. unfold PropagateStatistics_filter.
  destruct (PropagateStatistics_child child m) as [[node_stats child'] m'].
  destruct (is_empty_result child'); [reflexivity|].
  apply (run_loop_scan node_stats child' expressions [] m'); [lia|exact Hsize].
Qed.

(** ** The filter *)

Lemma list_delete_insert {A} (l : list A) (i : nat) (x : A) :
  delete i (<[i := x]> l) = delete i l.
Proof.
  revert i. induction l as [|a l IH]; intros [|i]; cbn; try reflexivity.
  f_equal. apply IH.
Qed.

(** C10: a filter that arrives with no predicates, over a child that is not
    the zero-row sentinel once it has been propagated, stays in its slot with
    its empty list; the statistics map is the one the propagation of the child
    left, and the child's node statistics are returned. *)
Theorem C10_empty_predicate_list `{Collaborators}
  (child child' : LogicalOperator) (m m' : gmap ColumnBinding BaseStatistics)
  (node_stats : option NodeStatistics) :
  PropagateStatistics_child child m = (node_stats, child', m') ->
  is_empty_result child' = false ->
  PropagateStatistics_filter [] child m
  = Some (mkResult (LogicalFilter [] child') m' node_stats).
Proof.
  intros Hchild Hne. unfold PropagateStatistics_filter.
  rewrite Hchild, Hne. reflexivity.
Qed.

(** ** The predicates examined by a call *)

Section Examined.
Context `{Collaborators}.
Variables (node_stats : option NodeStatistics) (child : LogicalOperator).

Lemma proven_true_not_false (condition : Expression) :
  proven_true condition = true -> proven_false condition = false.
Proof.
  intros Htrue. destruct (proven_false condition) eqn:Hfalse; [|reflexivity].
  rewrite (proven_false_not_true _ Hfalse) in Htrue. discriminate Htrue.
Qed.

(** The list [examined] is the trace of the loop: a turn of the loop at a
    predicate examines the head of the list, and what follows is the list of
    the state the turn leaves (nothing, when the turn ends the loop). *)
Lemma examined_follows_loop (kept rest : list Expression) (condition : Expression) m :
  (size (kept ++ condition :: rest) < idx_t_modulus)%N ->
  examined node_stats (condition :: rest) m
  = fst (PropagateExpression node_stats condition m)
    :: match loop_iteration node_stats child
               (mkLoopState (size kept) (kept ++ condition :: rest) m) with
       | Next s => examined node_stats (drop (N.to_nat (idx s)) (exprs s)) (smap s)
       | Done _ => []
       end.
Proof.
  intros Hsize. rewrite (loop_iteration_at _ _ _ _ _ _ Hsize). cbn [examined].
  destruct (PropagateExpression node_stats condition m) as [condition' m1]. cbn [fst].
  f_equal.
  destruct (proven_true condition').
  - destruct (bool_decide (kept ++ rest = [])) eqn:Hnil.
    + apply bool_decide_eq_true in Hnil. apply app_eq_nil in Hnil as [_ ->]. reflexivity.
    + cbn [idx exprs smap]. unfold size. rewrite Nat2N.id, drop_app_length. reflexivity.
  - destruct (proven_false condition'); [reflexivity|].
    cbn [idx exprs smap]. unfold size. rewrite Nat2N.id, drop_app_length. reflexivity.
Qed.

(** Unless one of them folds to false, every predicate of the list is
    examined. *)
Lemma examined_length (rest : list Expression) m :
  Forall (fun c => proven_false c = false) (examined node_stats rest m) ->
  length (examined node_stats rest m) = length rest.
Proof.
  revert m. induction rest as [|condition rest IH]; intros m; cbn [examined]; [reflexivity|].
  destruct (PropagateExpression node_stats condition m) as [condition' m1].
  intros Hall. inversion Hall as [|? ? Hc Hrest]; subst. cbn [length]. f_equal.
  destruct (proven_true condition'); [apply IH, Hrest|].
  rewrite Hc in *. apply IH, Hrest.
Qed.

(** When no examined predicate folds to false, the pass returns the node
    statistics it was given and leaves the examined predicates that did not
    fold to true; if that leaves none of a list that had some, the child
    takes the place of the filter. *)
Lemma scan_no_false (rest kept : list Expression) m :
  Forall (fun c => proven_false c = false) (examined node_stats rest m) ->
  returned (scan node_stats child kept rest m) = node_stats
  /\ node (scan node_stats child kept rest m)
     = (let residue := kept ++ List.filter (fun c => negb (proven_true c))
                                 (examined node_stats rest m) in
        if bool_decide (residue = []) && negb (bool_decide (rest = []))
        then child else LogicalFilter residue child).
Proof.
  revert kept m. induction rest as [|condition rest IH]; intros kept m;
    cbn [scan examined].
  - intros _. cbn. rewrite app_nil_r, andb_false_r. split; reflexivity.
  - destruct (PropagateExpression node_stats condition m) as [condition' m1].
    intros Hall. inversion Hall as [|? ? Hc Hrest]; subst. clear Hall.
    cbn [List.filter].
    rewrite (bool_decide_eq_false_2 (condition :: rest = [])) by discriminate.
    cbn [negb]. rewrite andb_true_r.
    destruct (proven_true condition') eqn:Htrue; cbn [negb].
    + destruct (bool_decide (kept ++ rest = [])) eqn:Hnil.
      * apply bool_decide_eq_true in Hnil. apply app_eq_nil in Hnil as [-> ->].
        cbn. split; reflexivity.
      * apply bool_decide_eq_false in Hnil.
        destruct (IH kept m1 Hrest) as [Hret Hnode]. split; [exact Hret|].
        rewrite Hnode. cbv zeta.
        destruct (bool_decide
                    (kept ++ List.filter (fun c => negb (proven_true c))
                               (examined node_stats rest m1) = [])) eqn:Hres;
          [|reflexivity].
        cbn [andb]. apply bool_decide_eq_true in Hres.
        apply app_eq_nil in Hres as [-> _].
        rewrite bool_decide_eq_false_2; [reflexivity|].
        intros ->. apply Hnil. reflexivity.
    + rewrite Hc in *.
      destruct (IH (kept ++ [condition']) (UpdateFilterStatistics condition' m1) Hrest)
        as [Hret Hnode].
      split; [exact Hret|]. rewrite Hnode. cbv zeta.
      rewrite <- app_assoc. cbn [app].
      rewrite (bool_decide_eq_false_2 (kept ++ condition' :: _ = []))
        by (intros Hnil; apply app_eq_nil in Hnil as [_ Hnil]; discriminate Hnil).
      reflexivity.
Qed.

(** When an examined predicate folds to false, the pass ends with the
    sentinel. *)
Lemma scan_some_false (rest kept : list Expression) m :
  Exists (fun c => proven_false c = true) (examined node_stats rest m) ->
  node (scan node_stats child kept rest m) = LogicalEmptyResult
  /\ returned (scan node_stats child kept rest m) = Some NodeStatistics_0_0.
Proof.
  revert kept m. induction rest as [|condition rest IH]; intros kept m;
    cbn [scan examined].
  - intros Hex. inversion Hex.
  - destruct (PropagateExpression node_stats condition m) as [condition' m1].
    intros Hex.
    destruct (proven_true condition') eqn:Htrue.
    + inversion Hex as [? ? Hc|? ? Hrest]; subst.
      * rewrite (proven_true_not_false _ Htrue) in Hc. discriminate Hc.
      * destruct (bool_decide (kept ++ rest = [])) eqn:Hnil; [|apply IH, Hrest].
        apply bool_decide_eq_true in Hnil. apply app_eq_nil in Hnil as [_ ->].
        cbn in Hrest. inversion Hrest.
    + destruct (proven_false condition') eqn:Hfalse; [split; reflexivity|].
      inversion Hex as [? ? Hc|? ? Hrest]; subst.
      * rewrite Hfalse in Hc. discriminate Hc.
      * apply IH, Hrest.
Qed.

End Examined.

(** C5: a filter whose child is not the zero-row sentinel and none of whose
    predicates folds to false when it is examined returns exactly the node
    statistics of its child, so its maximum cardinality is the child's.  If
    moreover its list does not become empty (it had no predicate, or some
    examined predicate does not fold to true), the filter stays in its slot
    with the examined predicates that did not fold to true; if the list does
    become empty, the child takes the slot.  The other way round, if an
    examined predicate folds to false the slot holds the sentinel and
    [NodeStatistics(0, 0)] is returned. *)
Theorem C5_filter_inherits_child_statistics `{Collaborators}
  (expressions : list Expression) (child child' : LogicalOperator)
  (m m' : gmap ColumnBinding BaseStatistics) (node_stats : option NodeStatistics) :
  (size expressions < idx_t_modulus)%N ->
  PropagateStatistics_child child m = (node_stats, child', m') ->
  is_empty_result child' = false ->
  let seen := examined node_stats expressions m' in
  let kept := List.filter (fun c => negb (proven_true c)) seen in
  exists r : Result,
    PropagateStatistics_filter expressions child m = Some r
    /\ (Forall (fun c => proven_false c = false) seen ->
        returned r = node_stats
        /\ max_cardinality <$> returned r = max_cardinality <$> node_stats
        /\ (expressions = [] \/ kept <> [] -> node r = LogicalFilter kept child')
        /\ (expressions <> [] -> kept = [] -> node r = child'))
    /\ (Exists (fun c => proven_false c = true) seen ->
        node r = LogicalEmptyResult /\ returned r = Some (mkNodeStatistics 0 true)).
Proof.
  intros Hsize Hchild Hne seen kept.
  rewrite (PropagateStatistics_filter_scan _ _ _ Hsize), Hchild, Hne.
  eexists. split; [reflexivity|]. split.
  - intros Hall.
    destruct (scan_no_false node_stats child' expressions [] m' Hall) as [Hret Hnode].
    cbv zeta in Hnode. cbn [app] in Hnode. fold seen in Hnode. fold kept in Hnode.
    split; [exact Hret|]. split; [now rewrite Hret|]. split.
    + intros [Hnil | Hkept]; rewrite Hnode.
      * rewrite (bool_decide_eq_true_2 (expressions = [])) by exact Hnil.
        cbn [negb]. rewrite andb_false_r. reflexivity.
      * rewrite (bool_decide_eq_false_2 (kept = [])) by exact Hkept. reflexivity.
    + intros Hexprs Hkept. rewrite Hnode.
      rewrite (bool_decide_eq_true_2 (kept = [])) by exact Hkept.
      rewrite (bool_decide_eq_false_2 (expressions = [])) by exact Hexprs.
      reflexivity.
  - intros Hex. apply (scan_some_false node_stats child' expressions [] m' Hex).
Qed.

(** C4: a predicate that folds to false when it is examined ends the call
    at once: the turn of the loop that examines it puts the zero-row sentinel
    in the slot and returns [NodeStatistics(0, 0)] (cardinality 0, exact).
    For the predicate at position [length pre] of the list, [r_pre] is what
    the predicates before it leave behind, so [statistics r_pre] is the map
    it is examined in.  The statistics map of the result is the one left by
    that predicate's own propagation (or by an earlier exit, when a predicate
    before it had folded to false or the child is empty), and the result is
    the same for every list of predicates after the position, so none of them
    is examined or narrows anything. *)
Theorem C4_false_predicate_empties_filter `{Collaborators} :
  (forall (node_stats : option NodeStatistics) (child : LogicalOperator)
          (s : LoopState) (condition condition' : Expression)
          (m1 : gmap ColumnBinding BaseStatistics),
      exprs s !! N.to_nat (idx s) = Some condition ->
      PropagateExpression node_stats condition (smap s) = (condition', m1) ->
      proven_false condition' = true ->
      loop_iteration node_stats child s
      = Done (mkResult LogicalEmptyResult m1 (Some (mkNodeStatistics 0 true))))
  /\ (forall (pre suf : list Expression) (condition condition' : Expression)
             (child child' : LogicalOperator)
             (m m' m1 : gmap ColumnBinding BaseStatistics)
             (node_stats : option NodeStatistics) (r_pre : Result),
        (size (pre ++ condition :: suf) < idx_t_modulus)%N ->
        PropagateStatistics_child child m = (node_stats, child', m') ->
        PropagateStatistics_filter pre child m = Some r_pre ->
        PropagateExpression node_stats condition (statistics r_pre) = (condition', m1) ->
        proven_false condition' = true ->
        let r := mkResult LogicalEmptyResult
                   (if is_empty_result (node r_pre) then statistics r_pre else m1)
                   (Some (mkNodeStatistics 0 true)) in
        PropagateStatistics_filter (pre ++ condition :: suf) child m = Some r
        /\ forall suf' : list Expression,
             (size (pre ++ condition :: suf') < idx_t_modulus)%N ->
             PropagateStatistics_filter (pre ++ condition :: suf') child m = Some r).
Proof.
  split.
  { intros node_stats child s condition condition' m1 Hat Hprop Hfalse.
    pose proof (lookup_lt_Some _ _ _ Hat) as Hlt.
    unfold loop_iteration.
    assert ((idx s <? size (exprs s))%N = true) as ->
      by (apply N.ltb_lt; unfold size; lia).
    rewrite Hat, Hprop.
    pose proof (proven_false_not_true _ Hfalse) as Htrue.
    unfold proven_true in Htrue. unfold proven_false in Hfalse.
    rewrite Htrue, Hfalse. reflexivity. }
  intros pre suf condition condition' child child' m m' m1 node_stats r_pre.
  intros Hsize Hchild Hpre Hprop Hfalse r.
  assert (size pre < idx_t_modulus)%N as Hsize_pre.
  { unfold size in *. rewrite length_app in Hsize. lia. }
  rewrite (PropagateStatistics_filter_scan _ _ _ Hsize_pre), Hchild in Hpre.
  assert (forall suf0 : list Expression,
            (size (pre ++ condition :: suf0) < idx_t_modulus)%N ->
            PropagateStatistics_filter (pre ++ condition :: suf0) child m = Some r) as Hall.
  { intros suf0 Hsize0.
    rewrite (PropagateStatistics_filter_scan _ _ _ Hsize0), Hchild. f_equal.
    destruct (is_empty_result child') eqn:Hne.
    - injection Hpre as <-. reflexivity.
    - injection Hpre as Hpre. subst r_pre.
      rewrite (scan_false_at node_stats child' pre suf0 [] condition condition' m' m1
                 Hne Hprop Hfalse).
      subst r.
      pose proof (scan_returned node_stats child' pre [] m' Hne) as Hret.
      cbv zeta in Hret.
      destruct (scan node_stats child' [] pre m') as [n st rt].
      cbn [node statistics returned] in *.
      destruct n; cbn [is_empty_result] in *; [|reflexivity..].
      rewrite Hret. reflexivity. }
  split; [apply Hall, Hsize|exact Hall].
Qed.

(** C9: a predicate that folds to true is erased and the loop goes on at the
    same index, which now addresses the predicate that followed it, so none is
    skipped (the whole call is the pass [scan], which examines every predicate
    in turn); when the erasure empties the list the slot receives the child
    and the loop stops.  A filter whose only predicate folds to true becomes
    its child. *)
Theorem C9_true_predicate_is_erased `{Collaborators} :
  (forall (node_stats : option NodeStatistics) (child : LogicalOperator)
          (s : LoopState) (condition condition' : Expression)
          (m1 : gmap ColumnBinding BaseStatistics),
      (size (exprs s) < idx_t_modulus)%N ->
      exprs s !! N.to_nat (idx s) = Some condition ->
      PropagateExpression node_stats condition (smap s) = (condition', m1) ->
      proven_true condition' = true ->
      let expressions := delete (N.to_nat (idx s)) (exprs s) in
      loop_iteration node_stats child s
      = (if bool_decide (expressions = [])
         then Done (mkResult child m1 node_stats)
         else Next (mkLoopState (idx s) expressions m1))
      /\ (forall j, (j < N.to_nat (idx s))%nat -> expressions !! j = exprs s !! j)
      /\ (forall j, (N.to_nat (idx s) <= j)%nat -> expressions !! j = exprs s !! S j))
  /\ (forall (expressions : list Expression) (child child' : LogicalOperator)
             (m m' : gmap ColumnBinding BaseStatistics) (node_stats : option NodeStatistics),
        (size expressions < idx_t_modulus)%N ->
        PropagateStatistics_child child m = (node_stats, child', m') ->
        is_empty_result child' = false ->
        PropagateStatistics_filter expressions child m
        = Some (scan node_stats child' [] expressions m'))
  /\ (forall (condition condition' : Expression) (child child' : LogicalOperator)
             (m m' m1 : gmap ColumnBinding BaseStatistics) (node_stats : option NodeStatistics),
        PropagateStatistics_child child m = (node_stats, child', m') ->
        is_empty_result child' = false ->
        PropagateExpression node_stats condition m' = (condition', m1) ->
        proven_true condition' = true ->
        PropagateStatistics_filter [condition] child m
        = Some (mkResult child' m1 node_stats)).
Proof.
  split; [|split].
  - intros node_stats child s condition condition' m1 Hsize Hat Hprop Htrue expressions.
    split; [|split].
    + pose proof (lookup_lt_Some _ _ _ Hat) as Hlt.
      unfold loop_iteration.
      assert ((idx s <? size (exprs s))%N = true) as ->
        by (apply N.ltb_lt; unfold size; lia).
      rewrite Hat, Hprop.
      unfold proven_true in Htrue. rewrite Htrue.
      rewrite list_delete_insert. fold expressions.
      rewrite idx_incr_decr by (unfold size in Hsize; lia).
      reflexivity.
    + intros j Hj. apply list_lookup_delete_lt, Hj.
    + intros j Hj. apply list_lookup_delete_ge, Hj.
  - intros expressions child child' m m' node_stats Hsize Hchild Hne.
    rewrite (PropagateStatistics_filter_scan _ _ _ Hsize), Hchild, Hne. reflexivity.
  - intros condition condition' child child' m m' m1 node_stats Hchild Hne Hprop Htrue.
    rewrite PropagateStatistics_filter_scan by reflexivity.
    rewrite Hchild, Hne. cbn [scan]. rewrite Hprop, Htrue. reflexivity.
Qed.

(** ** Instances of the theorems on concrete inputs *)

Lemma C4_witness :
  let pre := [BoundComparisonExpression COMPARE_GREATERTHAN (col c0) (lit 50)] in
  let suf := [BoundComparisonExpression COMPARE_LESSTHAN (col c0) (lit 10)] in
  let child := LogicalOtherOperator 0 [] in
  let m : gmap ColumnBinding BaseStatistics := {[ c0 := int_stats None 0 100 ]} in
  let m1 : gmap ColumnBinding BaseStatistics := {[ c0 := int_stats not_null 50 100 ]} in
  PropagateStatistics_filter pre child m
  = Some (mkResult (LogicalFilter pre child) m1 child_stats)
  /\ proven_false FALSE_ = true
  /\ loop_iteration child_stats child (mkLoopState 1 (pre ++ FALSE_ :: suf) m1)
     = Done (mkResult LogicalEmptyResult m1 (Some (mkNodeStatistics 0 true)))
  /\ PropagateStatistics_filter (pre ++ FALSE_ :: suf) child m
     = Some (mkResult LogicalEmptyResult m1 (Some (mkNodeStatistics 0 true))).
Proof.
  cbv zeta. split; [reflexivity|]. split; [reflexivity|]. split.
  - exact (proj1 C4_false_predicate_empties_filter child_stats (LogicalOtherOperator 0 [])
             (mkLoopState 1
                ([BoundComparisonExpression COMPARE_GREATERTHAN (col c0) (lit 50)]
                 ++ FALSE_ :: [BoundComparisonExpression COMPARE_LESSTHAN (col c0) (lit 10)])
                {[ c0 := int_stats not_null 50 100 ]})
             FALSE_ FALSE_ {[ c0 := int_stats not_null 50 100 ]}
             eq_refl eq_refl eq_refl).
  - exact (proj1 (proj2 C4_false_predicate_empties_filter
             [BoundComparisonExpression COMPARE_GREATERTHAN (col c0) (lit 50)]
             [BoundComparisonExpression COMPARE_LESSTHAN (col c0) (lit 10)]
             FALSE_ FALSE_ (LogicalOtherOperator 0 []) (LogicalOtherOperator 0 [])
             {[ c0 := int_stats None 0 100 ]} {[ c0 := int_stats None 0 100 ]}
             {[ c0 := int_stats not_null 50 100 ]} child_stats
             (mkResult
                (LogicalFilter
                   [BoundComparisonExpression COMPARE_GREATERTHAN (col c0) (lit 50)]
                   (LogicalOtherOperator 0 []))
                {[ c0 := int_stats not_null 50 100 ]} child_stats)
             eq_refl eq_refl eq_refl eq_refl eq_refl)).
Defined.

Lemma C5_witness :
  let gt50 := BoundComparisonExpression COMPARE_GREATERTHAN (col c0) (lit 50) in
  let gt20 := BoundComparisonExpression COMPARE_GREATERTHAN (col c0) (lit 20) in
  let child := LogicalOtherOperator 0 [] in
  let m : gmap ColumnBinding BaseStatistics := {[ c0 := int_stats None 0 100 ]} in
  @examined folding_collaborators child_stats [gt50; gt20] m = [gt50; TRUE_]
  /\ exists r : Result,
       @PropagateStatistics_filter folding_collaborators [gt50; gt20] child m = Some r
       /\ returned r = child_stats
       /\ max_cardinality <$> returned r = Some 1000%N
       /\ node r = LogicalFilter [gt50] child.
Proof.
  cbv zeta. split; [reflexivity|].
  destruct (@C5_filter_inherits_child_statistics folding_collaborators
              [BoundComparisonExpression COMPARE_GREATERTHAN (col c0) (lit 50);
               BoundComparisonExpression COMPARE_GREATERTHAN (col c0) (lit 20)]
              (LogicalOtherOperator 0 []) (LogicalOtherOperator 0 [])
              {[ c0 := int_stats None 0 100 ]} {[ c0 := int_stats None 0 100 ]}
              child_stats eq_refl eq_refl eq_refl)
    as (r & Hrun & Hkeep & _).
  exists r. split; [exact Hrun|].
  assert (Forall (fun c => @proven_false folding_collaborators c = false)
            (@examined folding_collaborators child_stats
               [BoundComparisonExpression COMPARE_GREATERTHAN (col c0) (lit 50);
                BoundComparisonExpression COMPARE_GREATERTHAN (col c0) (lit 20)]
               {[ c0 := int_stats None 0 100 ]})) as Hall
    by (vm_compute; repeat constructor).
  destruct (Hkeep Hall) as (Hret & Hmax & Hstay & _).
  split; [exact Hret|]. split; [exact Hmax|].
  apply Hstay. right. vm_compute. discriminate.
Defined.

Lemma C9_witness :
  let gt50 := BoundComparisonExpression COMPARE_GREATERTHAN (col c0) (lit 50) in
  let child := LogicalOtherOperator 0 [] in
  let m : gmap ColumnBinding BaseStatistics := {[ c0 := int_stats None 0 100 ]} in
  loop_iteration child_stats child (mkLoopState 0 [TRUE_; gt50] m)
  = Next (mkLoopState 0 [gt50] m)
  /\ PropagateStatistics_filter [TRUE_; gt50] child m
     = Some (scan child_stats child [] [TRUE_; gt50] m)
  /\ PropagateStatistics_filter [TRUE_] child m = Some (mkResult child m child_stats).
Proof.
  cbv zeta. split; [|split].
  - exact (proj1 (proj1 C9_true_predicate_is_erased child_stats (LogicalOtherOperator 0 [])
             (mkLoopState 0
                [TRUE_; BoundComparisonExpression COMPARE_GREATERTHAN (col c0) (lit 50)]
                {[ c0 := int_stats None 0 100 ]})
             TRUE_ TRUE_ {[ c0 := int_stats None 0 100 ]}
             eq_refl eq_refl eq_refl eq_refl)).
  - exact (proj1 (proj2 C9_true_predicate_is_erased)
             [TRUE_; BoundComparisonExpression COMPARE_GREATERTHAN (col c0) (lit 50)]
             (LogicalOtherOperator 0 []) (LogicalOtherOperator 0 [])
             {[ c0 := int_stats None 0 100 ]} {[ c0 := int_stats None 0 100 ]}
             child_stats eq_refl eq_refl eq_refl).
  - exact (proj2 (proj2 C9_true_predicate_is_erased) TRUE_ TRUE_
             (LogicalOtherOperator 0 []) (LogicalOtherOperator 0 [])
             {[ c0 := int_stats None 0 100 ]} {[ c0 := int_stats None 0 100 ]}
             {[ c0 := int_stats None 0 100 ]} child_stats
             eq_refl eq_refl eq_refl eq_refl).
Defined.

Lemma C10_witness :
  let child := LogicalOtherOperator 0 [] in
  let m : gmap ColumnBinding BaseStatistics := {[ c0 := int_stats None 0 100 ]} in
  is_empty_result child = false /\
  PropagateStatistics_filter [] child m
  = Some (mkResult (LogicalFilter [] child) m child_stats).
Proof.
  cbv zeta. split; [reflexivity|].
  exact (C10_empty_predicate_list (LogicalOtherOperator 0 []) (LogicalOtherOperator 0 [])
           {[ c0 := int_stats None 0 100 ]} {[ c0 := int_stats None 0 100 ]}
           child_stats eq_refl eq_refl).
Defined.

(** ** The scenarios of the spec *)

Example scenario_le_50 :
  UpdateFilterStatistics
    (BoundComparisonExpression COMPARE_LESSTHANOREQUALTO (col c0) (lit 50))
    {[ c0 := int_stats (Some (mkValidityStatistics true)) 0 100 ]}
  = {[ c0 := int_stats not_null 0 50 ]}.
Proof. vm_compute. reflexivity. Qed.

Example scenario_eq_7 :
  UpdateFilterStatistics (BoundComparisonExpression COMPARE_EQUAL (col c0) (lit 7))
    {[ c0 := int_stats None 0 100 ]}
  = {[ c0 := int_stats not_null 7 7 ]}.
Proof. vm_compute. reflexivity. Qed.

Example scenario_a_lt_b :
  UpdateFilterStatistics (BoundComparisonExpression COMPARE_LESSTHAN (col c0) (col c1))
    (<[ c0 := int_stats None (-50) 250 ]> {[ c1 := int_stats None (-100) 100 ]})
  = <[ c0 := int_stats not_null (-50) 100 ]> {[ c1 := int_stats not_null (-50) 100 ]}.
Proof. vm_compute. reflexivity. Qed.

(** Both operands are the same column: the two references alias one entry. *)
Example scenario_same_column :
  UpdateFilterStatistics (BoundComparisonExpression COMPARE_EQUAL (col c0) (col c0))
    {[ c0 := int_stats None 0 100 ]}
  = {[ c0 := int_stats not_null 0 100 ]}.
Proof. vm_compute. reflexivity. Qed.

Example scenario_filter_gt_50 :
  let gt50 := BoundComparisonExpression COMPARE_GREATERTHAN (col c0) (lit 50) in
  let child := LogicalOtherOperator 0 [] in
  PropagateStatistics_filter [gt50] child
    {[ c0 := int_stats (Some (mkValidityStatistics true)) 0 100 ]}
  = Some (mkResult (LogicalFilter [gt50] child)
            {[ c0 := int_stats not_null 50 100 ]}
            (Some (mkNodeStatistics 1000 false))).
Proof. vm_compute. reflexivity. Qed.

Example scenario_false_then_predicate :
  let lt10 := BoundComparisonExpression COMPARE_LESSTHAN (col c0) (lit 10) in
  PropagateStatistics_filter [FALSE_; lt10] (LogicalOtherOperator 0 [])
    {[ c0 := int_stats None 0 100 ]}
  = Some (mkResult LogicalEmptyResult {[ c0 := int_stats None 0 100 ]}
            (Some NodeStatistics_0_0)).
Proof. vm_compute. reflexivity. Qed.

(** * Further properties of the narrowing code *)

(** ** [SetStatisticsNotNull] *)

Lemma SetStatisticsNotNull_alter m b :
  SetStatisticsNotNull b m = alter (set_validity_stats not_null) b m.
Proof.
  unfold SetStatisticsNotNull. apply map_eq. intros k.
  destruct (m !! b) as [s|] eqn:Hb.
  - rewrite lookup_alter, lookup_insert. case_decide; [now rewrite Hb|reflexivity].
  - rewrite lookup_alter. case_decide; [subst; now rewrite Hb|reflexivity].
Qed.

Lemma alter_validity_comm m (a b : ColumnBinding) :
  alter (set_validity_stats not_null) a (alter (set_validity_stats not_null) b m)
  = alter (set_validity_stats not_null) b (alter (set_validity_stats not_null) a m).
Proof.
  destruct (decide (a = b)) as [->|Hne]; [reflexivity|].
  apply alter_alter_ne, Hne.
Qed.

(** X1: marking a column as holding no nulls does nothing when the map has no
    entry for it; otherwise it replaces the validity statistics of that entry
    and nothing else.  No entry appears or disappears, marking twice is
    marking once, and the order of two markings does not matter. *)
Theorem X1_SetStatisticsNotNull m (b : ColumnBinding) :
  (m !! b = None -> SetStatisticsNotNull b m = m)
  /\ (forall s, m !! b = Some s ->
        SetStatisticsNotNull b m !! b
        = Some (mkBaseStatistics (type s) not_null (min s) (max s)))
  /\ (forall k : ColumnBinding, k <> b -> SetStatisticsNotNull b m !! k = m !! k)
  /\ dom (SetStatisticsNotNull b m) = dom m
  /\ SetStatisticsNotNull b (SetStatisticsNotNull b m) = SetStatisticsNotNull b m
  /\ (forall a : ColumnBinding,
        SetStatisticsNotNull a (SetStatisticsNotNull b m)
        = SetStatisticsNotNull b (SetStatisticsNotNull a m)).
Proof.
  repeat split.
  - apply SetStatisticsNotNull_None.
  - intros s Hb. rewrite (SetStatisticsNotNull_Some _ _ _ Hb). apply lookup_insert_eq.
  - intros k Hk. rewrite SetStatisticsNotNull_alter. apply lookup_alter_ne. congruence.
  - rewrite SetStatisticsNotNull_alter. apply dom_alter_L.
  - rewrite !SetStatisticsNotNull_alter, alter_alter_eq.
    apply alter_ext. reflexivity.
  - intros a. rewrite !SetStatisticsNotNull_alter. apply alter_validity_comm.
Qed.

Lemma X1_witness :
  let m : gmap ColumnBinding BaseStatistics := {[ c0 := int_stats None 0 100 ]} in
  SetStatisticsNotNull c1 m = m
  /\ SetStatisticsNotNull c0 m !! c0 = Some (int_stats not_null 0 100)
  /\ SetStatisticsNotNull c1 m !! c0 = m !! c0.
Proof.
  cbv zeta.
  pose proof (X1_SetStatisticsNotNull {[ c0 := int_stats None 0 100 ]} c1) as H1.
  pose proof (X1_SetStatisticsNotNull {[ c0 := int_stats None 0 100 ]} c0) as H0.
  split; [exact (proj1 H1 eq_refl)|].
  split; [exact (proj1 (proj2 H0) (int_stats None 0 100) eq_refl)|].
  refine (proj1 (proj2 (proj2 H1)) c0 _). discriminate.
Defined.

(** ** Narrowing against a constant, continued *)

(** X2: on statistics that carry no range (a type that is not numeric, or a
    bound that is null) narrowing against a constant replaces the validity
    statistics and nothing else, for every comparator and every constant. *)
Theorem X2_constant_without_range stats (cmp : ExpressionType.t) (constant : Value) :
  IsNumeric (type stats) = false \/ IsNull (min stats) = true \/ IsNull (max stats) = true ->
  UpdateFilterStatistics_constant stats cmp constant
  = mkBaseStatistics (type stats) not_null (min stats) (max stats).
Proof.
  intros Hno. apply UpdateFilterStatistics_constant_no_range.
  unfold has_range.
  destruct Hno as [-> | [-> | ->]]; cbn; [reflexivity| |].
  - now rewrite andb_false_r.
  - apply andb_false_r.
Qed.

Lemma X2_witness :
  let stats := mkBaseStatistics VARCHAR None (mkValue VARCHAR false 0) (mkValue VARCHAR false 9) in
  UpdateFilterStatistics_constant stats COMPARE_EQUAL (mkValue VARCHAR false 3)
  = mkBaseStatistics VARCHAR not_null (mkValue VARCHAR false 0) (mkValue VARCHAR false 9).
Proof.
  exact (X2_constant_without_range
           (mkBaseStatistics VARCHAR None (mkValue VARCHAR false 0) (mkValue VARCHAR false 9))
           COMPARE_EQUAL (mkValue VARCHAR false 3) (or_introl eq_refl)).
Defined.

(** X3: narrowing against a constant is idempotent: the same comparison
    applied a second time changes nothing. *)
Theorem X3_constant_idempotent stats (cmp : ExpressionType.t) (constant : Value) :
  UpdateFilterStatistics_constant
    (UpdateFilterStatistics_constant stats cmp constant) cmp constant
  = UpdateFilterStatistics_constant stats cmp constant.
Proof.
  unfold UpdateFilterStatistics_constant. cbn.
  destruct (IsNumeric (type stats)) eqn:Hnum; cbn; [|now rewrite Hnum].
  destruct (IsNull (min stats)) eqn:Hmin; cbn; [now rewrite Hnum, Hmin|].
  destruct (IsNull (max stats)) eqn:Hmax; cbn; [now rewrite Hnum, Hmin, Hmax|].
  destruct cmp; cbn; rewrite ?Hnum, ?Hmin, ?Hmax; cbn; try reflexivity;
    destruct (IsNull constant); reflexivity.
Qed.

(** X4: a later bound replaces an earlier one.  With a non-null first
    constant, two upper bounds (or two lower bounds) in a row leave the second
    constant, whether or not it is the tighter one, and [=] after any
    comparison leaves what [=] alone would. *)
Theorem X4_last_bound_wins stats (cmp1 cmp2 : ExpressionType.t) (c1 c2 : Value) :
  IsNull c1 = false ->
  (cmp1 = COMPARE_LESSTHAN \/ cmp1 = COMPARE_LESSTHANOREQUALTO) /\
  (cmp2 = COMPARE_LESSTHAN \/ cmp2 = COMPARE_LESSTHANOREQUALTO)
  \/ (cmp1 = COMPARE_GREATERTHAN \/ cmp1 = COMPARE_GREATERTHANOREQUALTO) /\
     (cmp2 = COMPARE_GREATERTHAN \/ cmp2 = COMPARE_GREATERTHANOREQUALTO)
  \/ cmp2 = COMPARE_EQUAL ->
  UpdateFilterStatistics_constant (UpdateFilterStatistics_constant stats cmp1 c1) cmp2 c2
  = UpdateFilterStatistics_constant stats cmp2 c2.
Proof.
  intros Hc1 Hcmp.
  unfold UpdateFilterStatistics_constant. cbn.
  destruct (IsNumeric (type stats)) eqn:Hnum; cbn; [|now rewrite Hnum].
  destruct (IsNull (min stats)) eqn:Hmin; cbn; [now rewrite Hnum, Hmin|].
  destruct (IsNull (max stats)) eqn:Hmax; cbn; [now rewrite Hnum, Hmin, Hmax|].
  destruct Hcmp as [[[-> | ->] [-> | ->]] | [[[-> | ->] [-> | ->]] | ->]];
    try destruct cmp1; cbn; rewrite ?Hnum, ?Hmin, ?Hmax, ?Hc1; reflexivity.
Qed.

Lemma X4_witness :
  UpdateFilterStatistics_constant
    (UpdateFilterStatistics_constant (int_stats None 0 100) COMPARE_LESSTHAN (Value_INTEGER 10))
    COMPARE_LESSTHANOREQUALTO (Value_INTEGER 50)
  = int_stats not_null 0 50.
Proof.
  exact (X4_last_bound_wins (int_stats None 0 100) COMPARE_LESSTHAN
           COMPARE_LESSTHANOREQUALTO (Value_INTEGER 10) (Value_INTEGER 50) eq_refl
           (or_introl (conj (or_introl eq_refl) (or_intror eq_refl)))).
Defined.

(** X5: an upper and a lower bound against non-null constants can be applied
    in either order. *)
Theorem X5_upper_lower_commute stats (cmp_u cmp_l : ExpressionType.t) (c_u c_l : Value) :
  IsNull c_u = false -> IsNull c_l = false ->
  cmp_u = COMPARE_LESSTHAN \/ cmp_u = COMPARE_LESSTHANOREQUALTO ->
  cmp_l = COMPARE_GREATERTHAN \/ cmp_l = COMPARE_GREATERTHANOREQUALTO ->
  UpdateFilterStatistics_constant (UpdateFilterStatistics_constant stats cmp_u c_u) cmp_l c_l
  = UpdateFilterStatistics_constant (UpdateFilterStatistics_constant stats cmp_l c_l) cmp_u c_u.
Proof.
  intros Hu Hl Hcu Hcl.
  unfold UpdateFilterStatistics_constant. cbn.
  destruct (IsNumeric (type stats)) eqn:Hnum; cbn; [|now rewrite Hnum].
  destruct (IsNull (min stats)) eqn:Hmin; cbn; [now rewrite Hnum, Hmin|].
  destruct (IsNull (max stats)) eqn:Hmax; cbn; [now rewrite Hnum, Hmin, Hmax|].
  destruct Hcu as [-> | ->], Hcl as [-> | ->]; cbn;
    rewrite ?Hnum, ?Hmin, ?Hmax, ?Hu, ?Hl; reflexivity.
Qed.

Lemma X5_witness :
  UpdateFilterStatistics_constant
    (UpdateFilterStatistics_constant (int_stats None 0 100) COMPARE_LESSTHAN (Value_INTEGER 50))
    COMPARE_GREATERTHAN (Value_INTEGER 10)
  = UpdateFilterStatistics_constant
      (UpdateFilterStatistics_constant (int_stats None 0 100) COMPARE_GREATERTHAN (Value_INTEGER 10))
      COMPARE_LESSTHAN (Value_INTEGER 50).
Proof.
  exact (X5_upper_lower_commute (int_stats None 0 100) COMPARE_LESSTHAN COMPARE_GREATERTHAN
           (Value_INTEGER 50) (Value_INTEGER 10) eq_refl eq_refl
           (or_introl eq_refl) (or_introl eq_refl)).
Defined.

(** X6: a null constant takes the range away.  After narrowing a range
    against a null constant under [<], [<=], [>], [>=] or [=] a bound is
    null, and every later narrowing against a constant leaves the statistics
    as they are. *)
Theorem X6_null_constant_drops_range stats (cmp cmp' : ExpressionType.t)
  (constant constant' : Value) :
  has_range stats = true ->
  IsNull constant = true ->
  cmp = COMPARE_LESSTHAN \/ cmp = COMPARE_LESSTHANOREQUALTO \/
  cmp = COMPARE_GREATERTHAN \/ cmp = COMPARE_GREATERTHANOREQUALTO \/ cmp = COMPARE_EQUAL ->
  let stats' := UpdateFilterStatistics_constant stats cmp constant in
  has_range stats' = false
  /\ UpdateFilterStatistics_constant stats' cmp' constant' = stats'.
Proof.
  intros Hr Hc Hcmp stats'.
  destruct (has_range_true _ Hr) as (Hnum & Hmin & Hmax).
  assert (has_range stats' = false) as Hno.
  { subst stats'. unfold UpdateFilterStatistics_constant, has_range. cbn.
    rewrite Hnum, Hmin, Hmax. cbn.
    destruct Hcmp as [-> | [-> | [-> | [-> | ->]]]]; cbn;
      rewrite ?Hnum, ?Hmin, ?Hmax, ?Hc; cbn; rewrite ?andb_false_r; reflexivity. }
  split; [exact Hno|].
  rewrite (UpdateFilterStatistics_constant_no_range _ _ _ Hno).
  subst stats'. unfold UpdateFilterStatistics_constant. cbn.
  rewrite Hnum, Hmin, Hmax. cbn.
  destruct Hcmp as [-> | [-> | [-> | [-> | ->]]]]; reflexivity.
Qed.

Lemma X6_witness :
  let stats' := UpdateFilterStatistics_constant (int_stats None 0 100)
                  COMPARE_EQUAL (Value_NULL INTEGER) in
  has_range (int_stats None 0 100) = true
  /\ has_range stats' = false
  /\ UpdateFilterStatistics_constant stats' COMPARE_LESSTHAN (Value_INTEGER 5) = stats'.
Proof.
  cbv zeta. split; [reflexivity|].
  exact (X6_null_constant_drops_range (int_stats None 0 100) COMPARE_EQUAL COMPARE_LESSTHAN
           (Value_NULL INTEGER) (Value_INTEGER 5) eq_refl eq_refl
           (or_intror (or_intror (or_intror (or_intror eq_refl))))).
Defined.

(** ** Narrowing a pair of columns, continued *)

(** X7: [left < right] and [left <= right] on two ranges cap [left.max] at
    [right.max] and raise [right.min] to [left.min]; [left.min] and
    [right.max] stay.  [>] and [>=] do the same with the sides exchanged. *)
Theorem X7_inequality_narrowing h lb rb l r (cmp : ExpressionType.t) :
  h !! lb = Some l -> h !! rb = Some r ->
  has_range l = true -> has_range r = true ->
  let h' := UpdateFilterStatistics_stats lb rb cmp h in
  (cmp = COMPARE_LESSTHAN \/ cmp = COMPARE_LESSTHANOREQUALTO ->
   max (h' !!! lb) = (if Value_gt (max l) (max r) then max r else max l)
   /\ min (h' !!! rb) = (if Value_lt (min r) (min l) then min l else min r)
   /\ value_ (max (h' !!! lb)) = Z.min (value_ (max l)) (value_ (max r))
   /\ value_ (min (h' !!! rb)) = Z.max (value_ (min r)) (value_ (min l))
   /\ min (h' !!! lb) = min l /\ max (h' !!! rb) = max r)
  /\ (cmp = COMPARE_GREATERTHAN \/ cmp = COMPARE_GREATERTHANOREQUALTO ->
      max (h' !!! rb) = (if Value_gt (max r) (max l) then max l else max r)
      /\ min (h' !!! lb) = (if Value_lt (min l) (min r) then min r else min l)
      /\ value_ (max (h' !!! rb)) = Z.min (value_ (max r)) (value_ (max l))
      /\ value_ (min (h' !!! lb)) = Z.max (value_ (min l)) (value_ (min r))
      /\ min (h' !!! rb) = min r /\ max (h' !!! lb) = max l).
Proof.
  intros Hl Hr Hrl Hrr h'. subst h'.
  rewrite (UpdateFilterStatistics_stats_ranges _ _ _ _ _ _ Hl Hr Hrl Hrr). cbv zeta.
  destruct (has_range_true _ Hrl) as (Hnl & Hlmin & Hlmax).
  destruct (has_range_true _ Hrr) as (Hnr & Hrmin & Hrmax).
  split; intros [-> | ->].
  1-2: destruct (Value_gt (max l) (max r)) eqn:E1, (Value_lt (min r) (min l)) eqn:E3.
  9-10: destruct (Value_gt (max r) (max l)) eqn:E2, (Value_lt (min l) (min r)) eqn:E4.
  all: repeat split; read_entries Hl Hr; try reflexivity.
  all: to_Z; cbn [min max type set_min set_max set_validity_stats]; try lia.
  all: try (rewrite Z.gtb_ltb, Z.ltb_irrefl in *; discriminate).
Qed.

Lemma X7_witness :
  let h : gmap ColumnBinding BaseStatistics :=
    <[ c0 := int_stats None (-50) 250 ]> {[ c1 := int_stats None (-100) 100 ]} in
  let h' := UpdateFilterStatistics_stats c0 c1 COMPARE_LESSTHAN h in
  h !! c0 = Some (int_stats None (-50) 250) /\ h !! c1 = Some (int_stats None (-100) 100)
  /\ max (h' !!! c0) = Value_INTEGER 100 /\ min (h' !!! c1) = Value_INTEGER (-50).
Proof.
  cbv zeta. split; [reflexivity|]. split; [reflexivity|].
  pose proof (proj1 (X7_inequality_narrowing
                (<[ c0 := int_stats None (-50) 250 ]> {[ c1 := int_stats None (-100) 100 ]})
                c0 c1 (int_stats None (-50) 250) (int_stats None (-100) 100)
                COMPARE_LESSTHAN eq_refl eq_refl eq_refl eq_refl) (or_introl eq_refl))
    as (H1 & H2 & _).
  split; [exact H1|exact H2].
Defined.

(** X8: narrowing a pair of ranges only tightens them: on both sides the new
    [min] is not below the old one and the new [max] is not above the old one,
    for every comparator, and both sides still carry a range. *)
Theorem X8_pair_only_tightens h lb rb l r (cmp : ExpressionType.t) :
  h !! lb = Some l -> h !! rb = Some r ->
  has_range l = true -> has_range r = true ->
  let h' := UpdateFilterStatistics_stats lb rb cmp h in
  value_ (min l) <= value_ (min (h' !!! lb))
  /\ value_ (max (h' !!! lb)) <= value_ (max l)
  /\ value_ (min r) <= value_ (min (h' !!! rb))
  /\ value_ (max (h' !!! rb)) <= value_ (max r)
  /\ has_range (h' !!! lb) = true /\ has_range (h' !!! rb) = true.
Proof.
  intros Hl Hr Hrl Hrr h'. subst h'.
  rewrite (UpdateFilterStatistics_stats_ranges _ _ _ _ _ _ Hl Hr Hrl Hrr). cbv zeta.
  destruct (has_range_true _ Hrl) as (Hnl & Hlmin & Hlmax).
  destruct (has_range_true _ Hrr) as (Hnr & Hrmin & Hrmax).
  destruct cmp;
    repeat match goal with
           | |- context [if ?c then _ else _] => let E := fresh "E" in destruct c eqn:E
           end.
  all: repeat split; read_entries Hl Hr.
  all: unfold has_range; cbn [min max type set_min set_max set_validity_stats];
    rewrite ?Hnl, ?Hnr, ?Hlmin, ?Hlmax, ?Hrmin, ?Hrmax; try reflexivity.
  all: to_Z; lia.
Qed.

Lemma X8_witness :
  let h : gmap ColumnBinding BaseStatistics :=
    <[ c0 := int_stats None (-50) 250 ]> {[ c1 := int_stats None (-100) 100 ]} in
  let h' := UpdateFilterStatistics_stats c0 c1 COMPARE_GREATERTHANOREQUALTO h in
  -50 <= value_ (min (h' !!! c0)) /\ value_ (max (h' !!! c0)) <= 250
  /\ -100 <= value_ (min (h' !!! c1)) /\ value_ (max (h' !!! c1)) <= 100
  /\ has_range (h' !!! c0) = true /\ has_range (h' !!! c1) = true.
Proof.
  exact (X8_pair_only_tightens
           (<[ c0 := int_stats None (-50) 250 ]> {[ c1 := int_stats None (-100) 100 ]})
           c0 c1 (int_stats None (-50) 250) (int_stats None (-100) 100)
           COMPARE_GREATERTHANOREQUALTO eq_refl eq_refl eq_refl eq_refl).
Defined.

(** ** What every narrowing keeps *)

Lemma narrowed_refl s : narrowed s s.
Proof. split; auto. Qed.

Lemma narrowed_trans s1 s2 s3 : narrowed s1 s2 -> narrowed s2 s3 -> narrowed s1 s3.
Proof. intros [H1 H2] [H3 H4]. split; [congruence|auto]. Qed.

Lemma narrowed_set_validity_stats s : narrowed s (set_validity_stats not_null s).
Proof. split; reflexivity. Qed.

Lemma narrowed_set_min (v : Value) s : narrowed s (set_min v s).
Proof. split; auto. Qed.

Lemma narrowed_set_max (v : Value) s : narrowed s (set_max v s).
Proof. split; auto. Qed.

Lemma narrowed_constant s (cmp : ExpressionType.t) (c : Value) :
  narrowed s (UpdateFilterStatistics_constant s cmp c).
Proof.
  unfold UpdateFilterStatistics_constant. cbn.
  repeat match goal with
         | |- context [if ?c then _ else _] => destruct c
         end;
    try destruct cmp; split; reflexivity.
Qed.

Lemma map_narrowed_refl m : map_narrowed m m.
Proof.
  intros k. destruct (m !! k); constructor. apply narrowed_refl.
Qed.

Lemma map_narrowed_trans m1 m2 m3 :
  map_narrowed m1 m2 -> map_narrowed m2 m3 -> map_narrowed m1 m3.
Proof.
  intros H12 H23 k. specialize (H12 k). specialize (H23 k).
  destruct H12 as [s1 s2 Hs|]; inversion H23; subst; constructor.
  eapply narrowed_trans; eassumption.
Qed.

Lemma map_narrowed_alter m m0 (f : BaseStatistics -> BaseStatistics) (k : ColumnBinding) :
  (forall s, narrowed s (f s)) ->
  map_narrowed m m0 -> map_narrowed m (alter f k m0).
Proof.
  intros Hf Hm. apply (map_narrowed_trans _ m0); [exact Hm|].
  intros j. rewrite lookup_alter. case_decide.
  - subst. destruct (m0 !! j); constructor. apply Hf.
  - destruct (m0 !! j); constructor. apply narrowed_refl.
Qed.

Lemma map_narrowed_if (c : bool) m m1 m2 :
  map_narrowed m m1 -> map_narrowed m m2 -> map_narrowed m (if c then m1 else m2).
Proof. destruct c; auto. Qed.

Create HintDb narrowing.

#[local] Hint Resolve narrowed_set_validity_stats narrowed_set_min narrowed_set_max
  narrowed_constant map_narrowed_refl : narrowing.

Ltac solve_map_narrowed :=
  repeat first
    [ apply map_narrowed_refl
    | apply map_narrowed_if
    | apply map_narrowed_alter; [auto with narrowing|] ].

Lemma map_narrowed_stats h lb rb (cmp : ExpressionType.t) :
  map_narrowed h (UpdateFilterStatistics_stats lb rb cmp h).
Proof.
  unfold UpdateFilterStatistics_stats. cbv zeta.
  destruct cmp; solve_map_narrowed.
Qed.

Lemma map_narrowed_SetStatisticsNotNull m m0 b :
  map_narrowed m m0 -> map_narrowed m (SetStatisticsNotNull b m0).
Proof.
  intros Hm. rewrite SetStatisticsNotNull_alter. solve_map_narrowed. exact Hm.
Qed.

Lemma map_narrowed_columnref_constant m m0 b (cmp : ExpressionType.t) (c : Value) :
  map_narrowed m m0 ->
  map_narrowed m (UpdateFilterStatistics_columnref_constant b cmp c m0).
Proof.
  intros Hm. apply (map_narrowed_trans _ m0); [exact Hm|].
  unfold UpdateFilterStatistics_columnref_constant.
  destruct (m0 !! b) as [s|] eqn:Hb; [|apply map_narrowed_refl].
  intros k. rewrite lookup_insert. case_decide.
  - subst. rewrite Hb. constructor. apply narrowed_constant.
  - destruct (m0 !! k); constructor. apply narrowed_refl.
Qed.

Lemma map_narrowed_comparison m m0 (left right : Expression) (cmp : ExpressionType.t) :
  map_narrowed m m0 ->
  map_narrowed m (UpdateFilterStatistics_comparison left right cmp m0).
Proof.
  intros Hm. unfold UpdateFilterStatistics_comparison.
  destruct left, right;
    repeat match goal with
           | |- map_narrowed _ (match ?o with _ => _ end) => destruct o
           | |- _ => apply map_narrowed_columnref_constant
           | |- _ => apply map_narrowed_SetStatisticsNotNull
           | |- map_narrowed _ (UpdateFilterStatistics_stats _ _ _ ?h) =>
               apply (map_narrowed_trans _ h); [|apply map_narrowed_stats]
           end; exact Hm.
Qed.

Lemma map_narrowed_condition m (condition : Expression) :
  map_narrowed m (UpdateFilterStatistics condition m).
Proof.
  destruct condition; cbn [UpdateFilterStatistics];
    try apply map_narrowed_refl;
    repeat apply map_narrowed_comparison; apply map_narrowed_refl.
Qed.

Lemma map_narrowed_dom m m' : map_narrowed m m' -> dom m' = dom m.
Proof.
  intros Hm. apply set_eq. intros k. rewrite !elem_of_dom.
  specialize (Hm k). destruct Hm; split; intros [? ?]; eauto; discriminate.
Qed.

(** X9: whatever the condition, propagating it into the statistics map adds
    no entry and removes none, never changes the type of an entry, and never
    turns a column known to hold no nulls back into one that may. *)
Theorem X9_narrowing_keeps_entries m (condition : Expression) :
  let m' := UpdateFilterStatistics condition m in
  dom m' = dom m
  /\ forall (k : ColumnBinding) s', m' !! k = Some s' ->
       exists s, m !! k = Some s /\ type s' = type s
                 /\ (CanHaveNull s = false -> CanHaveNull s' = false).
Proof.
  intros m'. pose proof (map_narrowed_condition m condition) as Hm. fold m' in Hm.
  split; [apply map_narrowed_dom, Hm|].
  intros k s' Hk. specialize (Hm k). rewrite Hk in Hm.
  inversion Hm as [s ? [Hty Hnull]|]; subst. eauto.
Qed.

Lemma X9_witness :
  let m : gmap ColumnBinding BaseStatistics := {[ c0 := int_stats not_null 0 100 ]} in
  let m' := UpdateFilterStatistics
              (BoundComparisonExpression COMPARE_NOTEQUAL (col c0) (lit 5)) m in
  m' !! c0 = Some (int_stats not_null 0 100) /\
  exists s, m !! c0 = Some s /\ type (int_stats not_null 0 100) = type s
            /\ (CanHaveNull s = false -> CanHaveNull (int_stats not_null 0 100) = false).
Proof.
  cbv zeta. split; [reflexivity|].
  exact (proj2 (X9_narrowing_keeps_entries {[ c0 := int_stats not_null 0 100 ]}
                  (BoundComparisonExpression COMPARE_NOTEQUAL (col c0) (lit 5)))
           c0 (int_stats not_null 0 100) eq_refl).
Defined.

(** ** Dispatch of a comparison, continued *)

Lemma stats_lookup_other h lb rb (cmp : ExpressionType.t) (k : ColumnBinding) :
  k <> lb -> k <> rb ->
  UpdateFilterStatistics_stats lb rb cmp h !! k = h !! k.
Proof.
  intros Hl Hr. unfold UpdateFilterStatistics_stats. cbv zeta.
  destruct cmp;
    repeat match goal with
           | |- context [if ?c then _ else _] => destruct c
           end;
    rewrite ?lookup_alter_ne by congruence; reflexivity.
Qed.

(** Exchanging the two sides of a pair and mirroring the comparator. *)
Lemma stats_mirror h lb rb l r (cmp : ExpressionType.t) :
  h !! lb = Some l -> h !! rb = Some r ->
  type l = type r ->
  cmp <> COMPARE_EQUAL ->
  UpdateFilterStatistics_stats lb rb cmp h
  = UpdateFilterStatistics_stats rb lb (FlipComparisionExpression cmp) h.
Proof.
  intros Hl Hr Hty Hcmp.
  unfold UpdateFilterStatistics_stats. cbv zeta.
  rewrite (alter_validity_comm h lb rb).
  rewrite (lookup_total_validity_l _ _ _ _ Hl), (lookup_total_validity_r _ _ _ _ Hr).
  cbn [type min max set_validity_stats]. rewrite Hty.
  destruct (IsNumeric (type r)); cbn [negb]; [|reflexivity].
  destruct (IsNull (min l)), (IsNull (max l)), (IsNull (min r)), (IsNull (max r));
    cbn [orb]; try reflexivity.
  destruct cmp; cbn [FlipComparisionExpression]; try reflexivity.
  contradiction.
Qed.

(** X10: for two columns of the same type, a comparison narrows as the
    comparison with its operands exchanged and its comparator mirrored does
    ([a > b] as [b < a], [a <= b] as [b >= a]); this holds for every
    comparator but [=], whose tie-break depends on the side. *)
Theorem X10_column_pair_mirror m (a b : ColumnBinding) (cmp : ExpressionType.t) :
  cmp <> COMPARE_EQUAL ->
  (forall l r, m !! a = Some l -> m !! b = Some r -> type l = type r) ->
  UpdateFilterStatistics_comparison
    (BoundColumnRefExpression a) (BoundColumnRefExpression b) cmp m
  = UpdateFilterStatistics_comparison
      (BoundColumnRefExpression b) (BoundColumnRefExpression a)
      (FlipComparisionExpression cmp) m.
Proof.
  intros Hcmp Hty. unfold UpdateFilterStatistics_comparison.
  rewrite !SetStatisticsNotNull_alter.
  rewrite (alter_validity_comm m b a).
  set (m1 := alter (set_validity_stats not_null) a
               (alter (set_validity_stats not_null) b m)).
  destruct (m1 !! a) as [l1|] eqn:Ha, (m1 !! b) as [r1|] eqn:Hb; try reflexivity.
  apply (stats_mirror m1 a b l1 r1 cmp Ha Hb); [|exact Hcmp].
  pose proof (map_narrowed_alter m _ (set_validity_stats not_null) a
                (narrowed_set_validity_stats)
                (map_narrowed_alter m m (set_validity_stats not_null) b
                   (narrowed_set_validity_stats) (map_narrowed_refl m))) as Hn.
  fold m1 in Hn.
  pose proof (Hn a) as Hna. pose proof (Hn b) as Hnb.
  rewrite Ha in Hna. rewrite Hb in Hnb.
  inversion Hna as [l ? [Hl _] Hml|]; inversion Hnb as [r ? [Hr _] Hmr|]; subst.
  rewrite Hl, Hr. apply Hty; congruence.
Qed.

Lemma X10_witness :
  let m : gmap ColumnBinding BaseStatistics :=
    <[ c0 := int_stats None (-50) 250 ]> {[ c1 := int_stats None (-100) 100 ]} in
  UpdateFilterStatistics_comparison (col c0) (col c1) COMPARE_GREATERTHAN m
  = UpdateFilterStatistics_comparison (col c1) (col c0) COMPARE_LESSTHAN m.
Proof.
  cbv zeta.
  refine (X10_column_pair_mirror
            (<[ c0 := int_stats None (-50) 250 ]> {[ c1 := int_stats None (-100) 100 ]})
            c0 c1 COMPARE_GREATERTHAN _ _).
  - discriminate.
  - intros l r Hl Hr.
    vm_compute in Hl, Hr. injection Hl as <-. injection Hr as <-. reflexivity.
Defined.

(** X11: a column without an entry is not an error and narrows nothing.
    Against a constant the map is left as it is; against another column no
    bound is touched and the column that has an entry is only marked as
    holding no nulls. *)
Theorem X11_missing_entry m (a b : ColumnBinding) (cmp : ExpressionType.t) (c : Value) :
  (m !! a = None ->
   UpdateFilterStatistics_comparison
     (BoundColumnRefExpression a) (BoundConstantExpression c) cmp m = m
   /\ UpdateFilterStatistics_comparison
        (BoundConstantExpression c) (BoundColumnRefExpression a) cmp m = m)
  /\ (m !! a = None \/ m !! b = None ->
      UpdateFilterStatistics_comparison
        (BoundColumnRefExpression a) (BoundColumnRefExpression b) cmp m
      = SetStatisticsNotNull b (SetStatisticsNotNull a m)).
Proof.
  split.
  - intros Ha. split.
    + apply UpdateFilterStatistics_comparison_columnref_absent, Ha.
    + unfold UpdateFilterStatistics_comparison.
      rewrite (SetStatisticsNotNull_None _ _ Ha).
      unfold UpdateFilterStatistics_columnref_constant. now rewrite Ha.
  - intros Hab. unfold UpdateFilterStatistics_comparison.
    set (m1 := SetStatisticsNotNull b (SetStatisticsNotNull a m)).
    assert (m1 !! a = None \/ m1 !! b = None) as Hab1.
    { subst m1. rewrite !SetStatisticsNotNull_alter, !lookup_alter.
      destruct Hab as [Ha | Hb]; [left|right];
        repeat case_decide; subst; rewrite ?Ha, ?Hb; reflexivity. }
    destruct (m1 !! a), (m1 !! b); try reflexivity.
    destruct Hab1; discriminate.
Qed.

Lemma X11_witness :
  let m : gmap ColumnBinding BaseStatistics := {[ c0 := int_stats None 0 100 ]} in
  UpdateFilterStatistics_comparison (col c1) (lit 5) COMPARE_LESSTHAN m = m
  /\ UpdateFilterStatistics_comparison (col c0) (col c1) COMPARE_LESSTHAN m
     = {[ c0 := int_stats not_null 0 100 ]}.
Proof.
  cbv zeta.
  pose proof (X11_missing_entry {[ c0 := int_stats None 0 100 ]} c1 c0
                COMPARE_LESSTHAN (Value_INTEGER 5)) as H1.
  pose proof (X11_missing_entry {[ c0 := int_stats None 0 100 ]} c0 c1
                COMPARE_LESSTHAN (Value_INTEGER 5)) as H2.
  split; [exact (proj1 (proj1 H1 eq_refl))|].
  exact (proj2 H2 (or_intror eq_refl)).
Defined.

(** X12: a comparison or a between touches only the entries of the columns
    that stand as its operands: the entry of every other column is left as it
    is. *)
Theorem X12_other_columns_untouched m (k : ColumnBinding) :
  (forall (left right : Expression) (cmp : ExpressionType.t),
      left <> BoundColumnRefExpression k -> right <> BoundColumnRefExpression k ->
      UpdateFilterStatistics (BoundComparisonExpression cmp left right) m !! k = m !! k)
  /\ (forall (input lower upper : Expression) (lower_cmp upper_cmp : ExpressionType.t),
        input <> BoundColumnRefExpression k ->
        lower <> BoundColumnRefExpression k ->
        upper <> BoundColumnRefExpression k ->
        UpdateFilterStatistics
          (BoundBetweenExpression input lower upper lower_cmp upper_cmp) m !! k
        = m !! k).
Proof.
  assert (forall m0 (left right : Expression) (cmp : ExpressionType.t),
             left <> BoundColumnRefExpression k -> right <> BoundColumnRefExpression k ->
             UpdateFilterStatistics_comparison left right cmp m0 !! k = m0 !! k) as Hcmp.
  { intros m0 left right cmp Hleft Hright.
    unfold UpdateFilterStatistics_comparison, UpdateFilterStatistics_columnref_constant.
    destruct left as [a| | | |], right as [b| | | |];
      repeat match goal with
             | |- context [match ?o with Some _ => _ | None => _ end] => destruct o
             end;
      rewrite ?stats_lookup_other, ?lookup_insert_ne, ?SetStatisticsNotNull_alter,
        ?lookup_alter_ne by congruence;
      reflexivity. }
  split.
  - intros left right cmp Hleft Hright. cbn [UpdateFilterStatistics]. now apply Hcmp.
  - intros input lower upper lower_cmp upper_cmp Hi Hlo Hup.
    cbn [UpdateFilterStatistics]. rewrite !Hcmp by assumption. reflexivity.
Qed.

Lemma X12_witness :
  let m : gmap ColumnBinding BaseStatistics :=
    <[ c0 := int_stats None (-50) 250 ]> {[ c1 := int_stats None (-100) 100 ]} in
  UpdateFilterStatistics (BoundComparisonExpression COMPARE_LESSTHAN (col c0) (lit 5)) m !! c1
  = m !! c1.
Proof.
  cbv zeta.
  refine (proj1 (X12_other_columns_untouched
                   (<[ c0 := int_stats None (-50) 250 ]> {[ c1 := int_stats None (-100) 100 ]})
                   c1) (col c0) (lit 5) COMPARE_LESSTHAN _ _); discriminate.
Defined.

(** * Further properties of the filter *)

(** X13: the two fold tests exclude each other, and they look at the class of
    the predicate: only a constant is proven true, only a constant or a
    function expression is proven false; a column reference, a comparison and
    a between are never folded by the filter itself. *)
Theorem X13_fold_tests `{Collaborators} (condition : Expression) :
  (proven_true condition = true ->
   proven_false condition = false /\ exists v, condition = BoundConstantExpression v)
  /\ (proven_false condition = true ->
      proven_true condition = false
      /\ ((exists v, condition = BoundConstantExpression v)
          \/ exists name children, condition = BoundFunctionExpression name children))
  /\ (GetExpressionClass condition = ExpressionClass.BOUND_COLUMN_REF
      \/ GetExpressionClass condition = ExpressionClass.BOUND_COMPARISON
      \/ GetExpressionClass condition = ExpressionClass.BOUND_BETWEEN ->
      undecided condition = true).
Proof.
  split; [|split].
  - intros Htrue. split.
    + destruct (proven_false condition) eqn:Hfalse; [|reflexivity].
      rewrite (proven_false_not_true _ Hfalse) in Htrue. discriminate.
    + destruct condition; try discriminate. eauto.
  - intros Hfalse. split; [apply proven_false_not_true, Hfalse|].
    destruct condition; try discriminate; eauto.
  - destruct condition; cbn; intros [Hc | [Hc | Hc]]; try discriminate; reflexivity.
Qed.

Lemma X13_witness :
  proven_false TRUE_ = false /\ proven_true FALSE_ = false
  /\ undecided (BoundComparisonExpression COMPARE_LESSTHAN (col c0) (lit 5)) = true.
Proof.
  split; [exact (proj1 (proj1 (X13_fold_tests TRUE_) eq_refl))|].
  split; [exact (proj1 (proj1 (proj2 (X13_fold_tests FALSE_)) eq_refl))|].
  exact (proj2 (proj2 (X13_fold_tests
                         (BoundComparisonExpression COMPARE_LESSTHAN (col c0) (lit 5))))
           (or_intror (or_introl eq_refl))).
Defined.

(** X14: when the propagation of the child leaves the zero-row sentinel, the
    filter becomes the sentinel and [NodeStatistics(0, 0)] is returned with
    the statistics map the child left, whatever the predicates are and however
    many: none of them is propagated or examined. *)
Theorem X14_empty_child `{Collaborators}
  (expressions : list Expression) (child child' : LogicalOperator)
  (m m' : gmap ColumnBinding BaseStatistics) (node_stats : option NodeStatistics) :
  PropagateStatistics_child child m = (node_stats, child', m') ->
  is_empty_result child' = true ->
  PropagateStatistics_filter expressions child m
  = Some (mkResult LogicalEmptyResult m' (Some (mkNodeStatistics 0 true)))
  /\ PropagateStatistics_filter expressions child m = PropagateStatistics_filter [] child m.
Proof.
  intros Hchild Hempty. unfold PropagateStatistics_filter.
  rewrite Hchild, Hempty. split; reflexivity.
Qed.

Lemma X14_witness :
  let m : gmap ColumnBinding BaseStatistics := {[ c0 := int_stats None 0 100 ]} in
  PropagateStatistics_filter
    [BoundComparisonExpression COMPARE_LESSTHAN (col c0) (lit 5)] LogicalEmptyResult m
  = Some (mkResult LogicalEmptyResult m (Some (mkNodeStatistics 0 true))).
Proof.
  exact (proj1 (X14_empty_child
                  [BoundComparisonExpression COMPARE_LESSTHAN (col c0) (lit 5)]
                  LogicalEmptyResult LogicalEmptyResult
                  {[ c0 := int_stats None 0 100 ]} {[ c0 := int_stats None 0 100 ]}
                  child_stats eq_refl eq_refl)).
Defined.

(** X15: the loop over the predicates ends: started at index 0 it returns
    within one turn per predicate plus one, and more turns change nothing. *)
Theorem X15_loop_terminates `{Collaborators}
  (expressions : list Expression) (node_stats : option NodeStatistics)
  (child : LogicalOperator) (m : gmap ColumnBinding BaseStatistics) :
  (size expressions < idx_t_modulus)%N ->
  exists r : Result,
    run_loop (S (length expressions)) node_stats child (mkLoopState 0 expressions m) = Some r
    /\ forall fuel : nat,
         (length expressions < fuel)%nat ->
         run_loop fuel node_stats child (mkLoopState 0 expressions m) = Some r.
Proof.
  intros Hsize. exists (scan node_stats child [] expressions m).
  split; [|intros fuel Hfuel];
    apply (run_loop_scan node_stats child expressions [] m); [lia|exact Hsize|exact Hfuel|exact Hsize].
Qed.

Lemma X15_witness :
  let expressions := [TRUE_; BoundComparisonExpression COMPARE_LESSTHAN (col c0) (lit 5)] in
  let m : gmap ColumnBinding BaseStatistics := {[ c0 := int_stats None 0 100 ]} in
  exists r : Result,
    run_loop 3 child_stats (LogicalOtherOperator 0 []) (mkLoopState 0 expressions m) = Some r
    /\ forall fuel : nat,
         (2 < fuel)%nat ->
         run_loop fuel child_stats (LogicalOtherOperator 0 []) (mkLoopState 0 expressions m)
         = Some r.
Proof.
  exact (X15_loop_terminates
           [TRUE_; BoundComparisonExpression COMPARE_LESSTHAN (col c0) (lit 5)]
           child_stats (LogicalOtherOperator 0 []) {[ c0 := int_stats None 0 100 ]} eq_refl).
Defined.

Section ScanShape.
Context `{Collaborators}.
Variables (node_stats : option NodeStatistics) (child : LogicalOperator).

(** The three ways the pass can end, with what is known of the predicates
    that remain. *)
Lemma scan_shape (rest kept : list Expression) m :
  let r := scan node_stats child kept rest m in
  (node r = LogicalEmptyResult /\ returned r = Some NodeStatistics_0_0)
  \/ (node r = child /\ returned r = node_stats /\ kept = [] /\ rest <> [])
  \/ (exists kept' : list Expression,
        node r = LogicalFilter kept' child /\ returned r = node_stats
        /\ (length kept' <= length kept + length rest)%nat
        /\ (kept' = [] -> kept = [] /\ rest = [])
        /\ (Forall (fun c => undecided c = true) kept ->
            Forall (fun c => undecided c = true) kept')).
Proof.
  revert kept m. induction rest as [|condition rest IH]; intros kept m; cbn [scan].
  - right. right. exists kept. cbn.
    split; [reflexivity|]. split; [reflexivity|]. split; [lia|]. split; auto.
  - destruct (PropagateExpression node_stats condition m) as [condition' m1].
    destruct (proven_true condition') eqn:Htrue.
    + destruct (bool_decide (kept ++ rest = [])) eqn:Hnil.
      * apply bool_decide_eq_true in Hnil. apply app_eq_nil in Hnil as [-> ->].
        right. left. cbn. repeat split; discriminate.
      * apply bool_decide_eq_false in Hnil.
        destruct (IH kept m1)
          as [Hr | [(Hn & Hret & Hk & Hrest) | (kept' & Hn & Hret & Hlen & Hk & Hall)]].
        -- left. exact Hr.
        -- right. left. split; [exact Hn|]. split; [exact Hret|]. split; [exact Hk|].
           discriminate.
        -- right. right. exists kept'.
           split; [exact Hn|]. split; [exact Hret|].
           split; [cbn [length]; lia|]. split; [|exact Hall].
           intros Hnil'. destruct (Hk Hnil') as [-> ->]. contradiction Hnil. reflexivity.
    + destruct (proven_false condition') eqn:Hfalse.
      * left. split; reflexivity.
      * destruct (IH (kept ++ [condition']) (UpdateFilterStatistics condition' m1))
          as [Hr | [(Hn & Hret & Hk & Hrest) | (kept' & Hn & Hret & Hlen & Hk & Hall)]].
        -- left. exact Hr.
        -- apply app_eq_nil in Hk as [_ Hk]. discriminate Hk.
        -- right. right. exists kept'.
           split; [exact Hn|]. split; [exact Hret|].
           split; [rewrite length_app in Hlen; cbn [length] in *; lia|].
           split.
           ++ intros Hnil'. destruct (Hk Hnil') as [Hk' _].
              apply app_eq_nil in Hk' as [_ Hk']. discriminate Hk'.
           ++ intros Hkept. apply Hall. apply Forall_app. split; [exact Hkept|].
              constructor; [|constructor]. unfold undecided. now rewrite Htrue, Hfalse.
Qed.

End ScanShape.

(** X16: how a call can end when the child is not the sentinel.  Either the
    slot holds the sentinel and [NodeStatistics(0, 0)] is returned; or the
    filter, which had predicates, is replaced by its child; or the filter
    stays with a list of predicates that is no longer than before, is empty
    only if it was empty on entry, and holds no predicate that folds to true
    or to false.  In the last two cases the child's node statistics are
    returned. *)
Theorem X16_result_shape `{Collaborators}
  (expressions : list Expression) (child child' : LogicalOperator)
  (m m' : gmap ColumnBinding BaseStatistics) (node_stats : option NodeStatistics) :
  (size expressions < idx_t_modulus)%N ->
  PropagateStatistics_child child m = (node_stats, child', m') ->
  is_empty_result child' = false ->
  exists r : Result,
    PropagateStatistics_filter expressions child m = Some r
    /\ ((node r = LogicalEmptyResult /\ returned r = Some (mkNodeStatistics 0 true))
        \/ (node r = child' /\ returned r = node_stats /\ expressions <> [])
        \/ (exists kept : list Expression,
              node r = LogicalFilter kept child' /\ returned r = node_stats
              /\ (length kept <= length expressions)%nat
              /\ (kept = [] -> expressions = [])
              /\ Forall (fun c => proven_true c = false /\ proven_false c = false) kept)).
Proof.
  intros Hsize Hchild Hne.
  rewrite (PropagateStatistics_filter_scan _ _ _ Hsize), Hchild, Hne.
  eexists. split; [reflexivity|].
  destruct (scan_shape node_stats child' expressions [] m')
    as [Hr | [(Hn & Hret & _ & Hrest) | (kept & Hn & Hret & Hlen & Hk & Hall)]].
  - left. exact Hr.
  - right. left. auto.
  - right. right. exists kept.
    split; [exact Hn|]. split; [exact Hret|]. split; [exact Hlen|].
    split; [intros Hnil; apply (Hk Hnil)|].
    specialize (Hall (List.Forall_nil _)).
    eapply Forall_impl; [exact Hall|].
    intros c Hc. unfold undecided in Hc. cbn beta in Hc.
    apply andb_prop in Hc as [Ht Hf]. apply negb_true_iff in Ht, Hf. auto.
Qed.

Lemma X16_witness :
  let expressions := [TRUE_; BoundComparisonExpression COMPARE_LESSTHAN (col c0) (lit 5)] in
  let child := LogicalOtherOperator 0 [] in
  let m : gmap ColumnBinding BaseStatistics := {[ c0 := int_stats None 0 100 ]} in
  exists r : Result,
    PropagateStatistics_filter expressions child m = Some r
    /\ ((node r = LogicalEmptyResult /\ returned r = Some (mkNodeStatistics 0 true))
        \/ (node r = child /\ returned r = child_stats /\ expressions <> [])
        \/ (exists kept : list Expression,
              node r = LogicalFilter kept child /\ returned r = child_stats
              /\ (length kept <= length expressions)%nat
              /\ (kept = [] -> expressions = [])
              /\ Forall (fun c => proven_true c = false /\ proven_false c = false) kept)).
Proof.
  exact (X16_result_shape
           [TRUE_; BoundComparisonExpression COMPARE_LESSTHAN (col c0) (lit 5)]
           (LogicalOtherOperator 0 []) (LogicalOtherOperator 0 [])
           {[ c0 := int_stats None 0 100 ]} {[ c0 := int_stats None 0 100 ]}
           child_stats eq_refl eq_refl eq_refl).
Defined.

Lemma filter_negb_all_true {A} (P : A -> bool) (l : list A) :
  Forall (fun c => P c = true) l -> List.filter (fun c => negb (P c)) l = [].
Proof.
  induction 1 as [|c l Hc Hl IH]; [reflexivity|]. cbn. rewrite Hc. exact IH.
Qed.

Lemma filter_negb_all_false {A} (P : A -> bool) (l : list A) :
  Forall (fun c => P c = false) l -> List.filter (fun c => negb (P c)) l = l.
Proof.
  induction 1 as [|c l Hc Hl IH]; [reflexivity|]. cbn. rewrite Hc. cbn.
  f_equal. exact IH.
Qed.

(** X17: a filter with at least one predicate, all of whose predicates fold
    to true when the loop examines them (each after its own propagation, in
    the statistics map left by the predicates before it), is replaced by its
    child, and the child's node statistics are returned. *)
Theorem X17_all_true_removes_filter `{Collaborators}
  (expressions : list Expression) (child child' : LogicalOperator)
  (m m' : gmap ColumnBinding BaseStatistics) (node_stats : option NodeStatistics) :
  (size expressions < idx_t_modulus)%N ->
  PropagateStatistics_child child m = (node_stats, child', m') ->
  is_empty_result child' = false ->
  expressions <> [] ->
  Forall (fun c => proven_true c = true) (examined node_stats expressions m') ->
  exists r : Result,
    PropagateStatistics_filter expressions child m = Some r
    /\ node r = child' /\ returned r = node_stats.
Proof.
  intros Hsize Hchild Hne Hnil Hall.
  rewrite (PropagateStatistics_filter_scan _ _ _ Hsize), Hchild, Hne.
  eexists. split; [reflexivity|].
  assert (Forall (fun c => proven_false c = false) (examined node_stats expressions m'))
    as Hnf.
  { eapply Forall_impl; [exact Hall|]. intros c. apply proven_true_not_false. }
  destruct (scan_no_false node_stats child' expressions [] m' Hnf) as [Hret Hnode].
  split; [|exact Hret]. rewrite Hnode. cbv zeta. cbn [app].
  rewrite (filter_negb_all_true _ _ Hall).
  rewrite (bool_decide_eq_false_2 (expressions = [])) by exact Hnil. reflexivity.
Qed.

Lemma X17_witness :
  let gt50 := BoundComparisonExpression COMPARE_GREATERTHAN (col c0) (lit 50) in
  let child := LogicalOtherOperator 0 [] in
  let m : gmap ColumnBinding BaseStatistics := {[ c0 := int_stats None 60 100 ]} in
  @examined folding_collaborators child_stats [gt50] m = [TRUE_]
  /\ exists r : Result,
       @PropagateStatistics_filter folding_collaborators [gt50] child m = Some r
       /\ node r = child /\ returned r = child_stats.
Proof.
  cbv zeta. split; [reflexivity|].
  refine (@X17_all_true_removes_filter folding_collaborators
            [BoundComparisonExpression COMPARE_GREATERTHAN (col c0) (lit 50)]
            (LogicalOtherOperator 0 []) (LogicalOtherOperator 0 [])
            {[ c0 := int_stats None 60 100 ]} {[ c0 := int_stats None 60 100 ]}
            child_stats eq_refl eq_refl eq_refl _ _).
  - discriminate.
  - vm_compute. repeat constructor.
Defined.

(** X18: a filter none of whose predicates folds to true or to false when the
    loop examines them keeps every predicate: it stays in its slot with the
    examined predicates, as many as it had, and the child's node statistics
    are returned. *)
Theorem X18_no_fold_keeps_all `{Collaborators}
  (expressions : list Expression) (child child' : LogicalOperator)
  (m m' : gmap ColumnBinding BaseStatistics) (node_stats : option NodeStatistics) :
  (size expressions < idx_t_modulus)%N ->
  PropagateStatistics_child child m = (node_stats, child', m') ->
  is_empty_result child' = false ->
  Forall (fun c => proven_true c = false /\ proven_false c = false)
    (examined node_stats expressions m') ->
  exists r : Result,
    PropagateStatistics_filter expressions child m = Some r
    /\ node r = LogicalFilter (examined node_stats expressions m') child'
    /\ length (examined node_stats expressions m') = length expressions
    /\ returned r = node_stats.
Proof.
  intros Hsize Hchild Hne Hall.
  rewrite (PropagateStatistics_filter_scan _ _ _ Hsize), Hchild, Hne.
  eexists. split; [reflexivity|].
  assert (Forall (fun c => proven_false c = false) (examined node_stats expressions m'))
    as Hnf.
  { eapply Forall_impl; [exact Hall|]. intros c [_ Hf]. exact Hf. }
  pose proof (examined_length node_stats expressions m' Hnf) as Hlen.
  destruct (scan_no_false node_stats child' expressions [] m' Hnf) as [Hret Hnode].
  split; [|split; [exact Hlen|exact Hret]].
  rewrite Hnode. cbv zeta. cbn [app].
  rewrite (filter_negb_all_false proven_true (examined node_stats expressions m'))
    by (eapply Forall_impl; [exact Hall|]; intros c [Ht _]; exact Ht).
  destruct (bool_decide (examined node_stats expressions m' = [])) eqn:Hseen;
    [|reflexivity].
  apply bool_decide_eq_true in Hseen. rewrite Hseen in Hlen. cbn [length] in Hlen.
  rewrite (bool_decide_eq_true_2 (expressions = []))
    by (destruct expressions; [reflexivity|discriminate Hlen]).
  reflexivity.
Qed.

Lemma X18_witness :
  let gt50 := BoundComparisonExpression COMPARE_GREATERTHAN (col c0) (lit 50) in
  let child := LogicalOtherOperator 0 [] in
  let m : gmap ColumnBinding BaseStatistics := {[ c0 := int_stats None 0 100 ]} in
  @examined folding_collaborators child_stats [gt50] m = [gt50]
  /\ exists r : Result,
       @PropagateStatistics_filter folding_collaborators [gt50] child m = Some r
       /\ node r = LogicalFilter [gt50] child
       /\ returned r = child_stats.
Proof.
  cbv zeta. split; [reflexivity|].
  destruct (@X18_no_fold_keeps_all folding_collaborators
              [BoundComparisonExpression COMPARE_GREATERTHAN (col c0) (lit 50)]
              (LogicalOtherOperator 0 []) (LogicalOtherOperator 0 [])
              {[ c0 := int_stats None 0 100 ]} {[ c0 := int_stats None 0 100 ]}
              child_stats eq_refl eq_refl eq_refl)
    as (r & Hrun & Hnode & _ & Hret).
  { vm_compute. repeat constructor. }
  exists r. split; [exact Hrun|]. split; [exact Hnode|exact Hret].
Defined.

(** * Prepared statements *)

(** X19: a statement that was not prepared successfully never reaches the
    client: [PendingQuery] and [Execute] throw [InvalidInputException], for
    every argument and whatever the client is.  A statement built from an
    error message is such a statement. *)
Theorem X19_unsuccessful_statement_throws `{Prepared.Client}
  (ps : Prepared.PreparedStatement) (values : list Value) (allow_stream_result : bool) :
  Prepared.success ps = false ->
  Prepared.PendingQuery ps values
  = Prepared.Thrown (Prepared.InvalidInputException
                       "Attempting to execute an unsuccessfully prepared statement!")
  /\ Prepared.Execute ps values allow_stream_result
     = Prepared.Thrown (Prepared.InvalidInputException
                          "Attempting to execute an unsuccessfully prepared statement!")
  /\ forall error : string,
       Prepared.Execute (Prepared.PreparedStatement_error error) values allow_stream_result
       = Prepared.Thrown (Prepared.InvalidInputException
                            "Attempting to execute an unsuccessfully prepared statement!").
Proof.
  intros Hs. unfold Prepared.Execute, Prepared.PendingQuery. rewrite Hs. cbn.
  repeat split; reflexivity.
Qed.

Lemma X19_witness :
  Prepared.Execute (Prepared.PreparedStatement_error "syntax error") [] true
  = Prepared.Thrown (Prepared.InvalidInputException
                       "Attempting to execute an unsuccessfully prepared statement!").
Proof.
  exact (proj1 (proj2 (X19_unsuccessful_statement_throws
                         (Prepared.PreparedStatement_error "syntax error") [] true eq_refl))).
Defined.

(** X20: when the pending query reports failure, [Execute] returns a
    materialized result that carries the pending query's error and the
    pending query is not executed: the result is the same for both values of
    [allow_stream_result], also when the statement has no data. *)
Theorem X20_failed_pending_gives_error_result `{Prepared.Client}
  (ps : Prepared.PreparedStatement) (values : list Value)
  (pending : Prepared.PendingQueryResult) (allow_stream_result : bool) :
  Prepared.PendingQuery ps values = Prepared.Returned pending ->
  Prepared.pending_success pending = false ->
  Prepared.Execute ps values allow_stream_result
  = Prepared.Returned (Prepared.MaterializedQueryResult (Prepared.pending_error pending)).
Proof.
  intros Hp Hs. unfold Prepared.Execute. rewrite Hp, Hs. reflexivity.
Qed.

Lemma X20_witness :
  Prepared.Execute
    (Prepared.PreparedStatement_new (Some tt) (Some (Prepared.example_data true)) "bad" 0)
    [] true
  = Prepared.Returned "no such table".
Proof.
  exact (X20_failed_pending_gives_error_result
           (Prepared.PreparedStatement_new (Some tt) (Some (Prepared.example_data true)) "bad" 0)
           [] (false, "no such table") true eq_refl eq_refl).
Defined.

(** X21: a result is streamed only if the caller and the statement both allow
    it.  The pending query is executed with the conjunction of the two flags;
    for a statement whose data do not allow streaming, asking for a streamed
    result changes nothing. *)
Theorem X21_streaming_needs_both_flags `{Prepared.Client}
  (ps : Prepared.PreparedStatement) (values : list Value)
  (pending : Prepared.PendingQueryResult) (d : Prepared.PreparedStatementData)
  (allow_stream_result : bool) :
  Prepared.PendingQuery ps values = Prepared.Returned pending ->
  Prepared.pending_success pending = true ->
  Prepared.data ps = Some d ->
  Prepared.Execute ps values allow_stream_result
  = Prepared.PendingQueryResult_Execute pending
      (allow_stream_result && Prepared.allow_stream_result d)
  /\ (Prepared.allow_stream_result d = false ->
      Prepared.Execute ps values true = Prepared.Execute ps values false).
Proof.
  intros Hp Hs Hd.
  unfold Prepared.Execute, Prepared.stream_flag, Prepared.with_data.
  rewrite Hp, Hs, Hd. cbn.
  split.
  - destruct allow_stream_result; reflexivity.
  - intros ->. reflexivity.
Qed.

Lemma X21_witness :
  let ps := Prepared.PreparedStatement_new (Some tt)
              (Some (Prepared.example_data false)) "select" 0 in
  Prepared.Execute ps [] true = Prepared.Returned "materialized"
  /\ Prepared.Execute ps [] true = Prepared.Execute ps [] false.
Proof.
  cbv zeta.
  pose proof (X21_streaming_needs_both_flags
                (Prepared.PreparedStatement_new (Some tt)
                   (Some (Prepared.example_data false)) "select" 0)
                [] (true, EmptyString) (Prepared.example_data false) true
                eq_refl eq_refl eq_refl) as [H1 H2].
  split; [exact H1|exact (H2 eq_refl)].
Defined.

(** * The statistics map across a filter *)

Lemma map_narrowed_scan `{Collaborators} (node_stats : option NodeStatistics)
  (child : LogicalOperator) (rest kept : list Expression) m0 m :
  (forall c m1, map_narrowed m1 (snd (PropagateExpression node_stats c m1))) ->
  map_narrowed m0 m ->
  map_narrowed m0 (statistics (scan node_stats child kept rest m)).
Proof.
  intros Hprop. revert kept m.
  induction rest as [|condition rest IH]; intros kept m Hm; cbn [scan].
  - exact Hm.
  - pose proof (Hprop condition m) as Hc.
    destruct (PropagateExpression node_stats condition m) as [condition' m1].
    cbn [snd] in Hc.
    assert (map_narrowed m0 m1) as Hm1 by (eapply map_narrowed_trans; eassumption).
    destruct (proven_true condition').
    + destruct (bool_decide (kept ++ rest = [])); [exact Hm1|apply IH, Hm1].
    + destruct (proven_false condition'); [exact Hm1|].
      apply IH. eapply map_narrowed_trans; [exact Hm1|apply map_narrowed_condition].
Qed.

(** X22: if the propagation of an expression adds no entry to the statistics
    map, removes none, keeps the type of every entry and keeps a column that
    holds no nulls so, then so does the whole filter, from the map the child
    left to the map the call leaves, however the call ends. *)
Theorem X22_filter_keeps_entries `{Collaborators}
  (expressions : list Expression) (child child' : LogicalOperator)
  (m m' : gmap ColumnBinding BaseStatistics) (node_stats : option NodeStatistics) :
  (size expressions < idx_t_modulus)%N ->
  PropagateStatistics_child child m = (node_stats, child', m') ->
  (forall c m1, map_narrowed m1 (snd (PropagateExpression node_stats c m1))) ->
  exists r : Result,
    PropagateStatistics_filter expressions child m = Some r
    /\ dom (statistics r) = dom m'
    /\ forall (k : ColumnBinding) s', statistics r !! k = Some s' ->
         exists s, m' !! k = Some s /\ type s' = type s
                   /\ (CanHaveNull s = false -> CanHaveNull s' = false).
Proof.
  intros Hsize Hchild Hprop.
  rewrite (PropagateStatistics_filter_scan _ _ _ Hsize), Hchild.
  eexists. split; [reflexivity|].
  assert (map_narrowed m'
            (statistics (if is_empty_result child'
                         then mkResult LogicalEmptyResult m' (Some NodeStatistics_0_0)
                         else scan node_stats child' [] expressions m'))) as Hm.
  { destruct (is_empty_result child'); [apply map_narrowed_refl|].
    apply map_narrowed_scan; [exact Hprop|apply map_narrowed_refl]. }
  split; [apply map_narrowed_dom, Hm|].
  intros k s' Hk. specialize (Hm k). rewrite Hk in Hm.
  inversion Hm as [s ? [Hty Hnull]|]; subst. eauto.
Qed.

Lemma X22_witness :
  let expressions := [BoundComparisonExpression COMPARE_LESSTHAN (col c0) (lit 5)] in
  let child := LogicalOtherOperator 0 [] in
  let m : gmap ColumnBinding BaseStatistics := {[ c0 := int_stats None 0 100 ]} in
  exists r : Result,
    PropagateStatistics_filter expressions child m = Some r
    /\ dom (statistics r) = dom m
    /\ forall (k : ColumnBinding) s', statistics r !! k = Some s' ->
         exists s, m !! k = Some s /\ type s' = type s
                   /\ (CanHaveNull s = false -> CanHaveNull s' = false).
Proof.
  exact (X22_filter_keeps_entries
           [BoundComparisonExpression COMPARE_LESSTHAN (col c0) (lit 5)]
           (LogicalOtherOperator 0 []) (LogicalOtherOperator 0 [])
           {[ c0 := int_stats None 0 100 ]} {[ c0 := int_stats None 0 100 ]}
           child_stats eq_refl eq_refl (fun _ m1 => map_narrowed_refl m1)).
Defined.
